(** * AgriRisk: the risk-scoring pipeline of [ml/train_model.py]

    A shallow embedding of [ProductionAgriRiskModel]: the feature
    engineering of [prepare_features], the training driver [train], the
    scoring entry point [predict_risk_score] and the breakdown composer
    [_calculate_breakdown], followed by the properties of the pipeline.

    Conventions of the embedding.
    - A float64 is the rational it denotes ([Q]); [None] stands for NaN.
      Booleans are the numbers 0 and 1, as they are for pandas once placed
      in a numeric column.
    - The arithmetic of scoring, of the breakdown and of the metrics rounds
      every result to the nearest float64 as IEEE 754 does
      ([Num.float64]); overflow to an infinity is left out.  The
      arithmetic of feature engineering is exact: a zero divisor gives NaN
      there and integers are unbounded.
    - A [DataFrame] is a finite map from column names to columns; a column
      is numeric or holds strings (pandas' object dtype).  A column of
      strings read where numbers are needed raises a [TypeError].
    - A raised exception is the left injection of [result]; it carries the
      Python exception class and its message.
    - catboost, scikit-learn, matplotlib and the functions of numpy are not
      part of the repository: they are the operations of the class
      [Library], and each call that can raise there can raise here.
      Writing the two charts to disk is left out. *)

From Stdlib Require Import QArith Qround Qabs Lqa Lia ZArith.
From stdpp Require Import base option list gmap strings sorting.

Open Scope Q_scope.

(** ** Numbers *)

Module Num.

(** [np.clip(x, lo, hi)] on one float. *)
Definition clip (x lo hi : Q) : Q :=
  if Qle_bool x lo then lo else if Qle_bool hi x then hi else x.

(** Python's [int(x)] on a float: truncation towards zero. *)
Definition int (x : Q) : Z := (Qnum x ÷ Zpos (Qden x))%Z.

(** Python's [round(x)]: to the nearest integer, halves to the even one. *)
Definition round (x : Q) : Z :=
  let f := Qfloor x in
  let r := x - inject_Z f in
  match Qcompare r (1 # 2) with
  | Lt => f
  | Gt => (f + 1)%Z
  | Eq => if Z.even f then f else (f + 1)%Z
  end.

(** [2 ^ e] for an integer [e]. *)
Definition pow2 (e : Z) : Q :=
  if (0 <=? e)%Z then inject_Z (2 ^ e) else 1 # Z.to_pos (2 ^ (- e)).

(** The integer part of the base-2 logarithm of a positive number. *)
Definition ilog2 (a : Q) : Z :=
  let k := (Z.log2 (Qnum a) - Z.log2 (Zpos (Qden a)))%Z in
  if Qle_bool (pow2 k) a then k else (k - 1)%Z.

(** The float64 nearest to a real number, a tie going to the even
    significand: 53 bits of significand, no exponent below -1074.  It is
    what an IEEE 754 operation returns for its exact result. *)
Definition float64 (x : Q) : Q :=
  if Qeq_bool x 0 then 0 else
  let a := Qabs x in
  let e := Z.max (ilog2 a - 52) (-1074) in
  let r := Qred (inject_Z (round (a / pow2 e)) * pow2 e) in
  if Qle_bool 0 x then r else - r.

(** [x + y], [x - y], [x * y] and [x / y] on two float64. *)
Definition fadd (x y : Q) : Q := float64 (x + y).
Definition fsub (x y : Q) : Q := float64 (x - y).
Definition fmul (x y : Q) : Q := float64 (x * y).
Definition fdiv (x y : Q) : Q := float64 (x / y).

(** [round(x, n)] on a [numpy.float64], for a positive number [n] of
    decimals: numpy multiplies by [10 ** n], rounds to the nearest integer
    and divides by [10 ** n]. *)
Definition round_nd (x : Q) (n : nat) : Q :=
  let s := inject_Z (10 ^ Z.of_nat n) in
  fdiv (inject_Z (round (fmul x s))) s.

Definition of_bool (b : bool) : Q := if b then 1 else 0.

(** [a / b] in exact arithmetic, NaN when the divisor is zero. *)
Definition div (a b : Q) : option Q :=
  if Qeq_bool b 0 then None else Some (a / b).

(** Stable insertion sort, ascending; used for medians. *)
Fixpoint insert_asc (x : Q) (l : list Q) : list Q :=
  match l with
  | [] => [x]
  | y :: l' => if Qle_bool x y then x :: l else y :: insert_asc x l'
  end.

Definition sort_asc (l : list Q) : list Q := foldr insert_asc [] l.

Definition sum (l : list Q) : Q := foldl Qplus 0 l.

End Num.

#[export] Instance Qlt_decision (x y : Q) : Decision (x < y) :=
  decide (Qnum x * QDen y < Qnum y * QDen x)%Z.

#[export] Instance Qeq_decision (x y : Q) : Decision (x == y) :=
  decide (Qnum x * QDen y = Qnum y * QDen x)%Z.

(** ** Python exceptions *)

Inductive exn_class :=
  ValueError | KeyError | TypeError | IndexError | AttributeError
| CatBoostError.

Record exn := Raise { exn_type : exn_class; exn_msg : string }.

Definition result (A : Type) : Type := exn + A.

Definition Ok {A} (a : A) : result A := inr a.
Definition raise {A} (c : exn_class) (msg : string) : result A :=
  inl (Raise c msg).

#[export] Instance exn_class_eq_dec : EqDecision exn_class.
Proof. solve_decision. Defined.

#[export] Instance result_ret : MRet result := λ A a, inr a.
#[export] Instance result_bind : MBind result :=
  λ A B f m, match m with inl e => inl e | inr a => f a end.

Definition is_ok {A} (r : result A) : bool :=
  match r with inr _ => true | inl _ => false end.

(** Left-to-right loop over a list in the [result] monad: the [for] loops
    that update a frame column by column. *)
Fixpoint for_each {A S} (f : S → A → result S) (l : list A) (s : S)
  : result S :=
  match l with
  | [] => Ok s
  | a :: l' => s' ← f s a; for_each f l' s'
  end.

(** ** The fragment of pandas the model uses *)

Module Pandas.

(** A numeric series (float64, int64 or bool) with NaN as [None]. *)
Definition series := list (option Q).

Inductive column :=
| NumCol (l : series)
| StrCol (l : list (option string)).

(** A Python scalar as it appears as a value of a farm-record dict. *)
Inductive value :=
| VNum (q : Q)
| VStr (s : string)
| VBool (b : bool)
| VNaN.

(** The key of a group in [groupby]; a NaN key is dropped. *)
Inductive key := KStr (s : string) | KNum (q : Q).

Definition key_eqb (a b : key) : bool :=
  match a, b with
  | KStr s, KStr t => String.eqb s t
  | KNum p, KNum q => Qeq_bool p q
  | _, _ => false
  end.

Definition key_ltb (a b : key) : bool :=
  match a, b with
  | KStr s, KStr t => String.ltb s t
  | KNum p, KNum q => negb (Qle_bool q p)
  | KNum _, KStr _ => true
  | KStr _, KNum _ => false
  end.

Definition keys (c : column) : list (option key) :=
  match c with
  | NumCol l => fmap (M := list) (fmap (M := option) KNum) l
  | StrCol l => fmap (M := list) (fmap (M := option) KStr) l
  end.

Definition col_length (c : column) : nat :=
  match c with NumCol l => length l | StrCol l => length l end.

(** *** Element-wise arithmetic, NaN propagating *)

Definition lift1 (f : Q → Q) (s : series) : series :=
  fmap (M := list) (fmap (M := option) f) s.

Definition lift2 (f : Q → Q → option Q) (a b : series) : series :=
  zip_with (λ x y, x ← x; y ← y; f x y) a b.

Definition mul (a b : series) : series := lift2 (λ x y, Some (x * y)) a b.
Definition add (a b : series) : series := lift2 (λ x y, Some (x + y)) a b.
Definition sub (a b : series) : series := lift2 (λ x y, Some (x - y)) a b.
Definition div (a b : series) : series := lift2 Num.div a b.

Definition scale (k : Q) (a : series) : series := lift1 (λ x, x * k) a.
Definition over (a : series) (k : Q) : series := lift1 (λ x, x / k) a.
Definition minus_from (k : Q) (a : series) : series := lift1 (λ x, k - x) a.
Definition abs (a : series) : series := lift1 Qabs a.
Definition clip (a : series) (lo hi : Q) : series :=
  lift1 (λ x, Num.clip x lo hi) a.

(** A boolean series turned into 0/1: [mask.astype(int)]. *)
Definition mask_to_int (m : list bool) : series :=
  fmap (M := list) (λ b, Some (Num.of_bool b)) m.

(** Comparisons of a series with a scalar; NaN compares false. *)
Definition lt_scalar (a : series) (k : Q) : list bool :=
  fmap (M := list)
    (λ x, match x with Some q => negb (Qle_bool k q) | None => false end) a.
Definition gt_scalar (a : series) (k : Q) : list bool :=
  fmap (M := list)
    (λ x, match x with Some q => negb (Qle_bool q k) | None => false end) a.
Definition eq_scalar (a : series) (k : Q) : list bool :=
  fmap (M := list)
    (λ x, match x with Some q => Qeq_bool q k | None => false end) a.
Definition mask_or (a b : list bool) : list bool := zip_with orb a b.

(** [col.isin(values)] for a list of strings; a number or NaN is not in. *)
Definition isin (c : column) (vals : list string) : list bool :=
  match c with
  | StrCol l =>
      fmap (M := list)
        (λ x, match x with
              | Some s => bool_decide (s ∈ vals)
              | None => false
              end) l
  | NumCol l => fmap (M := list) (λ _, false) l
  end.

(** [col == 'literal']. *)
Definition eq_str (c : column) (lit : string) : list bool := isin c [lit].

(** [col.map(table)]: a value without an entry maps to NaN. *)
Fixpoint table_get (table : list (string * Q)) (s : string) : option Q :=
  match table with
  | [] => None
  | (k, v) :: table' => if String.eqb k s then Some v else table_get table' s
  end.

Definition map_table (c : column) (table : list (string * Q)) : series :=
  match c with
  | StrCol l =>
      fmap (M := list) (λ x : option string, x ≫= table_get table) l
  | NumCol l => fmap (M := list) (λ _, None) l
  end.

(** [s.astype(int)] on a numeric series: NaN cannot be converted. *)
Definition astype_int (s : series) : result series :=
  mapM (M := result)
    (λ x, match x with
          | Some q => Ok (Some (inject_Z (Num.int q)))
          | None =>
              raise ValueError
                "Cannot convert non-finite values (NA or inf) to integer"
          end) s.

(** *** Reductions, all skipping NaN *)

Definition dropna (s : series) : list Q := omap id s.

Definition median (s : series) : option Q :=
  let v := Num.sort_asc (dropna s) in
  let n := length v in
  if Nat.even n
  then a ← v !! (n / 2 - 1)%nat; b ← v !! (n / 2)%nat; Some ((a + b) / 2)
  else v !! (n / 2)%nat.

Definition mean (s : series) : option Q :=
  let v := dropna s in
  Num.div (Num.sum v) (inject_Z (Z.of_nat (length v))).

Definition min (s : series) : option Q :=
  match dropna s with
  | [] => None
  | x :: v => Some (foldl (λ m y, if Qle_bool m y then m else y) x v)
  end.

(** [s.fillna(v)]; filling with NaN changes nothing. *)
Definition fillna (s : series) (v : option Q) : series :=
  fmap (M := list) (λ x, match x with Some q => Some q | None => v end) s.

Definition fillna_str (l : list (option string)) (v : string)
  : list (option string) :=
  fmap (M := list)
    (λ x, match x with Some s => Some s | None => Some v end) l.

(** [s[mask] = v]. *)
Definition loc_set (mask : list bool) (s : series) (v : Q) : series :=
  zip_with (λ (b : bool) x, if b then Some v else x) mask s.

(** [s.mode()]: the most frequent values, in ascending order, NaN left
    out.  [count] and the selection work on keys so that one definition
    serves both kinds of column. *)
Definition count (k : key) (l : list key) : nat :=
  length (filter (λ x, key_eqb k x = true) l).

Definition max_count (l : list key) : nat :=
  foldr (λ k m, Nat.max (count k l) m) 0%nat l.

Definition least (l : list key) : option key :=
  match l with
  | [] => None
  | x :: l' => Some (foldl (λ m y, if key_ltb y m then y else m) x l')
  end.

(** [s.mode()[0]]; an all-NaN column has an empty mode and position 0
    does not exist. *)
Definition mode0 (c : column) : result key :=
  let ks := omap id (keys c) in
  let top := filter (λ k, count k ks = max_count ks) ks in
  match least top with
  | Some k => Ok k
  | None => raise KeyError "0"
  end.

(** [col.fillna(col.mode()[0])]. *)
Definition fillna_mode (c : column) : result column :=
  k ← mode0 c;
  match c, k with
  | StrCol l, KStr s => Ok (StrCol (fillna_str l s))
  | NumCol l, KNum q => Ok (NumCol (fillna l (Some q)))
  | _, _ => Ok c
  end.

(** *** groupby().transform() *)

Definition same_key (k : option key) (x : option key) : bool :=
  match k, x with
  | Some a, Some b => key_eqb a b
  | _, _ => false
  end.

(** The values of the rows whose key is [k], in row order. *)
Definition group_of (k : option key) (ks : list (option key)) (s : series)
  : series :=
  snd <$> filter (λ p, same_key k p.1 = true) (zip ks s).

(** [df.groupby(by)[col].transform(f)]: [f] runs once on each group and
    every row receives the entry of its group's result at the row's
    position in the group; a row with a NaN key belongs to no group. *)
Fixpoint transform_rows (f : series → series) (ks_all : list (option key))
    (s_all : series) (seen : list (option key)) (ks : list (option key))
  : series :=
  match ks with
  | [] => []
  | k :: ks' =>
      let pos := length (filter (λ x, same_key k x = true) seen) in
      mjoin (f (group_of k ks_all s_all) !! pos)
      :: transform_rows f ks_all s_all (seen ++ [k]) ks'
  end.

Definition groupby_transform (by_col : column) (s : series)
    (f : series → series) : series :=
  let ks := keys by_col in transform_rows f ks s [] ks.

(** [transform('mean')]: the group's mean, broadcast to its rows. *)
Definition broadcast_mean (g : series) : series :=
  replicate (length g) (mean g).

(** *** Frames *)

Definition DataFrame := gmap string column.

(** [df[name]]. *)
Definition get (df : gmap string column) (name : string) : result column :=
  match df !! name with
  | Some c => Ok c
  | None => raise KeyError name
  end.

(** [df[name]] used in arithmetic: strings do not support it. *)
Definition get_num (df : gmap string column) (name : string)
  : result series :=
  c ← get df name;
  match c with
  | NumCol l => Ok l
  | StrCol _ => raise TypeError name
  end.

Definition column_of_value (v : value) : column :=
  match v with
  | VNum q => NumCol [Some q]
  | VBool b => NumCol [Some (Num.of_bool b)]
  | VNaN => NumCol [None]
  | VStr s => StrCol [Some s]
  end.

(** [pd.DataFrame([record])]: the one-row frame of a dict. *)
Definition of_record (d : gmap string value) : gmap string column :=
  column_of_value <$> d.

(** [df.loc[mask, col] = v]: a column the frame lacks is created, NaN
    outside the mask. *)
Definition loc_assign (df : gmap string column) (mask : list bool)
    (col : string) (v : Q) : result (gmap string column) :=
  match df !! col with
  | Some (NumCol c) => Ok (<[col := NumCol (loc_set mask c v)]> df)
  | Some (StrCol _) => raise TypeError col
  | None =>
      Ok (<[col := NumCol (loc_set mask (replicate (length mask) None) v)]> df)
  end.

(** [df[columns]]: selection in the order of [columns]. *)
Definition select (df : gmap string column) (columns : list string)
  : result (list (string * column)) :=
  mapM (M := result) (λ c, v ← get df c; Ok (c, v)) columns.

End Pandas.

Import Pandas.

(** A feature matrix: the selected columns, in order. *)
Definition Matrix := list (string * column).

(** ** The libraries the model calls

    Everything the repository takes from numpy, scikit-learn and catboost.
    A call into scikit-learn or numpy that can raise returns a [result]; a
    call into catboost returns the message of its [CatBoostError] on the
    left. *)

Class Library := {
  (** a fitted [CatBoostClassifier] *)
  Estimator : Type;
  (** the isotonic map of a fitted [CalibratedClassifierCV(cv='prefit')] *)
  Calibrator : Type;
  (** a catboost [Pool] *)
  Pool : Type;
  (** [np.log1p]; NaN outside its domain *)
  log1p : Q → option Q;
  (** [y.mean()] on the values of a column *)
  numpy_mean : column → result (option Q);
  (** [train_test_split(X, y, test_size, stratify=y, random_state=42)]:
      [((X_a, X_b), (y_a, y_b))] *)
  train_test_split :
    Matrix → column → Q → result ((Matrix * Matrix) * (column * column));
  (** [Pool(X, y, cat_features=...)]; [Pool(X, cat_features=...)] without
      labels *)
  catboost_pool : Matrix → option column → list nat → string + Pool;
  (** [CatBoostClassifier(...).fit(train_pool, eval_set=val_pool)] *)
  catboost_fit : Pool → Pool → string + Estimator;
  (** [model.predict_proba(X)[:, 1]] *)
  catboost_predict_proba : Estimator → Matrix → string + list Q;
  (** [CalibratedClassifierCV(estimator, cv='prefit',
      method='isotonic').fit(X, y)] *)
  calibrator_fit : Estimator → Matrix → column → result Calibrator;
  (** [calibrated.predict_proba(X)[:, 1]]; it calls the estimator *)
  calibrated_predict_proba :
    Estimator → Calibrator → Matrix → string + list Q;
  roc_auc_score : column → list Q → result Q;
  brier_score_loss : column → list Q → result Q;
  (** [confusion_matrix(y_true, y_pred).ravel()] *)
  confusion_matrix : column → list bool → result (list Z);
  (** [model.get_feature_importance(train_pool)] *)
  get_feature_importance : Estimator → Pool → string + list Q;
  (** [model.get_feature_importance(pool, type='ShapValues')] *)
  shap_values : Estimator → Pool → string + list (list Q);
  (** [calibration_curve(y_true, y_prob, n_bins=10)]; the curve is only
      drawn *)
  calibration_curve : column → list Q → result unit;
}.

(** A call into catboost. *)
Definition catboost {A} (r : string + A) : result A :=
  match r with
  | inl msg => raise CatBoostError msg
  | inr a => Ok a
  end.

(** ** Feature engineering: [prepare_features] *)

Definition irrigation_scores : list (string * Q) :=
  [("drip", 0.95); ("sprinkler", 0.85); ("canal", 0.70);
   ("borewell", 0.60); ("flood", 0.50); ("rainfed", 0.0); ("none", 0.0)].

Definition numerical_features : list string :=
  [ (* Core physics *)
    "land_acres"; "actual_rainfall_mm"; "rainfall_deficit_pct";
    "heatwave_days"; "monsoon_reliability";
    (* Satellite/Soil *)
    "ndvi_score"; "soil_moisture_percent"; "soil_fertility_index";
    "vegetation_health_score"; "soil_quality_score";
    (* Infrastructure *)
    "water_source_count"; "borewell_count"; "borewell_depth_ft";
    "crop_count"; "livestock_count";
    (* Financial *)
    "kcc_score"; "kcc_repayment_rate"; "outstanding_debt_ratio";
    (* Engineered indices *)
    "water_security_index"; "financial_health_index";
    "diversification_index"; "weather_stress_index";
    "irrigation_score";
    (* Interactions *)
    "irrigation_x_drought"; "tractor_x_land";
    "debt_x_drought"; "diversification_x_weather";
    "rainfall_deviation_from_state";
    (* Temporal *)
    "year_ordinal";
    (* Flags *)
    "is_rainfed"; "is_high_risk_crop"; "is_marginal_farmer";
    "is_single_crop"; "has_deep_borewell"; "is_drought_year";
    "is_flood_year"; "has_financial_stress"; "is_kharif_season";
    "owns_tractor"; "has_storage"; "has_livestock";
    "has_canal_access"; "has_insurance_history" ]%string.

Definition categorical_features : list string :=
  ["state"; "crop_type"; "irrigation_type"; "season"]%string.

Definition feature_columns : list string :=
  numerical_features ++ categorical_features.

(** One round of the loop [for col in numerical_features]. *)
Definition impute_numerical (df : gmap string column) (col : string)
  : result (gmap string column) :=
  if bool_decide (col = "borewell_depth_ft"%string) then
    (* If rainfed, depth = 0 (not median) *)
    irr ← get df "irrigation_type";
    df ← loc_assign df (isin irr ["rainfed"; "none"]) col 0;
    c ← get_num df col;
    Ok (<[col := NumCol (fillna c (median c))]> df)
  else if bool_decide (col = "borewell_count"%string) then
    irr ← get df "irrigation_type";
    df ← loc_assign df (isin irr ["rainfed"; "none"]) col 0;
    c ← get_num df col;
    Ok (<[col := NumCol (fillna c (Some 0))]> df)
  else if bool_decide (col ∈ ["ndvi_score"; "soil_moisture_percent"]%string) then
    (* Use state-level median for region *)
    st ← get df "state";
    c ← get_num df col;
    Ok (<[col := NumCol (groupby_transform st c (λ x, fillna x (median x)))]> df)
  else
    (* Standard median imputation *)
    c ← get_num df col;
    Ok (<[col := NumCol (fillna c (median c))]> df).

(** One round of the loop [for col in categorical_features]. *)
Definition impute_categorical (df : gmap string column) (col : string)
  : result (gmap string column) :=
  c ← get df col;
  c' ← fillna_mode c;
  Ok (<[col := c']> df).

Section Features.
Context `{L : Library}.

Definition log1p_series (s : series) : series :=
  fmap (M := list) (λ x : option Q, x ≫= log1p) s.

(** The assignments of [prepare_features] up to the feature selection:
    interactions, indices, flags, temporal and regional features. *)
Definition engineer (df : gmap string column) : result (gmap string column) :=
  (* 1. interaction features *)
  irr ← get df "irrigation_type";
  deficit ← get_num df "rainfall_deficit_pct";
  let df := <["irrigation_x_drought" :=
    NumCol (mul (mask_to_int (isin irr ["drip"; "sprinkler"]))
                (clip deficit 0 1))]> df in
  tractor ← get_num df "owns_tractor";
  tractor ← astype_int tractor;
  land ← get_num df "land_acres";
  let df := <["tractor_x_land" := NumCol (mul tractor (log1p_series land))]> df in
  debt ← get_num df "outstanding_debt_ratio";
  deficit ← get_num df "rainfall_deficit_pct";
  let df := <["debt_x_drought" := NumCol (mul debt (clip deficit 0 1))]> df in
  crops ← get_num df "crop_count";
  deficit ← get_num df "rainfall_deficit_pct";
  let df := <["diversification_x_weather" :=
    NumCol (mul (clip crops 1 3)
                (minus_from 1 (clip (abs deficit) 0 1)))]> df in
  (* 2. domain indices *)
  irr ← get df "irrigation_type";
  let df := <["irrigation_score" :=
    NumCol (fillna (map_table irr irrigation_scores) (Some 0))]> df in
  score ← get_num df "irrigation_score";
  sources ← get_num df "water_source_count";
  depth ← get_num df "borewell_depth_ft";
  let df := <["water_security_index" :=
    NumCol (add (add (scale 0.5 score)
                     (scale 0.3 (clip (over sources 4) 0 1)))
                (scale 0.2 (clip (over depth 200) 0 1)))]> df in
  repay ← get_num df "kcc_repayment_rate";
  debt ← get_num df "outstanding_debt_ratio";
  let df := <["financial_health_index" :=
    NumCol (clip (add (scale 0.6 (over repay 100))
                      (scale 0.4 (minus_from 1 (over (clip debt 0 1.5) 1.5))))
                 0 1)]> df in
  crops ← get_num df "crop_count";
  livestock ← get_num df "has_livestock";
  livestock ← astype_int livestock;
  let df := <["diversification_index" :=
    NumCol (clip (add (scale 0.6 (clip (over crops 3) 0 1))
                      (scale 0.4 livestock))
                 0 1)]> df in
  deficit ← get_num df "rainfall_deficit_pct";
  heat ← get_num df "heatwave_days";
  let df := <["weather_stress_index" :=
    NumCol (clip (add (scale 0.6 (abs deficit))
                      (scale 0.4 (clip (over heat 20) 0 1)))
                 0 1)]> df in
  ndvi ← get_num df "ndvi_score";
  let df := <["vegetation_health_score" := NumCol (scale 100 ndvi)]> df in
  fertility ← get_num df "soil_fertility_index";
  moisture ← get_num df "soil_moisture_percent";
  let df := <["soil_quality_score" :=
    NumCol (scale 100 (add (scale 0.6 fertility)
                           (scale 0.4 (over moisture 100))))]> df in
  (* 3. risk flags *)
  irr ← get df "irrigation_type";
  let df := <["is_rainfed" :=
    NumCol (mask_to_int (isin irr ["rainfed"; "none"]))]> df in
  crop ← get df "crop_type";
  let df := <["is_high_risk_crop" :=
    NumCol (mask_to_int (isin crop ["cotton"; "rice"; "soybean"]))]> df in
  land ← get_num df "land_acres";
  let df := <["is_marginal_farmer" :=
    NumCol (mask_to_int (lt_scalar land 2.5))]> df in
  crops ← get_num df "crop_count";
  let df := <["is_single_crop" :=
    NumCol (mask_to_int (eq_scalar crops 1))]> df in
  depth ← get_num df "borewell_depth_ft";
  let df := <["has_deep_borewell" :=
    NumCol (mask_to_int (gt_scalar depth 150))]> df in
  deficit ← get_num df "rainfall_deficit_pct";
  let df := <["is_drought_year" :=
    NumCol (mask_to_int (gt_scalar deficit 0.3))]> df in
  deficit ← get_num df "rainfall_deficit_pct";
  let df := <["is_flood_year" :=
    NumCol (mask_to_int (lt_scalar deficit (-0.3)))]> df in
  repay ← get_num df "kcc_repayment_rate";
  debt ← get_num df "outstanding_debt_ratio";
  let df := <["has_financial_stress" :=
    NumCol (mask_to_int (mask_or (lt_scalar repay 60)
                                 (gt_scalar debt 1.0)))]> df in
  (* 4. temporal features *)
  year ← get_num df "year";
  year' ← get_num df "year";
  let df := <["year_ordinal" :=
    NumCol (sub year (replicate (length year') (min year')))]> df in
  season ← get df "season";
  let df := <["is_kharif_season" :=
    NumCol (mask_to_int (eq_str season "kharif"))]> df in
  (* 5. statistical aggregations *)
  st ← get df "state";
  rain ← get_num df "actual_rainfall_mm";
  let state_rainfall_mean := groupby_transform st rain broadcast_mean in
  rain ← get_num df "actual_rainfall_mm";
  Ok (<["rainfall_deviation_from_state" :=
    NumCol (div (sub rain state_rainfall_mean) state_rainfall_mean)]> df).

(** [prepare_features(df)].  The frame of the caller is copied first
    ([df = df.copy()]), so that every assignment below is made to the
    copy; the value returned is
    [(df[feature_columns], feature_columns, categorical_features)]. *)
Definition prepare_features (df : gmap string column)
  : result (Matrix * list string * list string) :=
  df ← engineer df;
  df ← for_each impute_numerical numerical_features df;
  df ← for_each impute_categorical categorical_features df;
  X ← select df feature_columns;
  Ok (X, feature_columns, categorical_features).

End Features.

(** ** Explanation: [_calculate_breakdown] *)

Definition weather_features : list string :=
  ["rainfall_deficit_pct"; "heatwave_days"; "actual_rainfall_mm";
   "monsoon_reliability"; "weather_stress_index"; "is_drought_year";
   "is_flood_year"; "rainfall_deviation_from_state"]%string.

Definition infrastructure_features : list string :=
  ["irrigation_type"; "water_source_count"; "borewell_depth_ft";
   "borewell_count"; "has_canal_access"; "water_security_index";
   "irrigation_score"; "is_rainfed"; "has_deep_borewell";
   "irrigation_x_drought"]%string.

Definition diversification_features : list string :=
  ["crop_count"; "has_livestock"; "livestock_count"; "crop_type";
   "diversification_index"; "is_single_crop"; "is_high_risk_crop";
   "diversification_x_weather"]%string.

Definition financial_features : list string :=
  ["kcc_score"; "kcc_repayment_rate"; "outstanding_debt_ratio";
   "has_insurance_history"; "financial_health_index";
   "has_financial_stress"; "debt_x_drought"]%string.

(** [sum(contributions[i] for i, f in enumerate(names) if f in bucket)],
    with [i] counted from [i0] and the running total [acc]: one float64
    addition for each feature of the bucket; indexing past the end of
    [contributions] raises. *)
Fixpoint shap_sum (bucket : list string) (contributions : list Q)
    (i0 : nat) (names : list string) (acc : Q) : result Q :=
  match names with
  | [] => Ok acc
  | f :: names' =>
      if bool_decide (f ∈ bucket) then
        match contributions !! i0 with
        | Some c =>
            shap_sum bucket contributions (S i0) names' (Num.fadd acc c)
        | None => raise IndexError "index out of bounds"
        end
      else shap_sum bucket contributions (S i0) names' acc
  end.

Record Breakdown := {
  weather_risk : Z;
  infrastructure : Z;
  diversification : Z;
  financial_health : Z;
}.

Definition _calculate_breakdown (feature_names : list string)
    (contributions : list Q) : result Breakdown :=
  weather_shap ← shap_sum weather_features contributions 0 feature_names 0;
  infra_shap ← shap_sum infrastructure_features contributions 0 feature_names 0;
  div_shap ← shap_sum diversification_features contributions 0 feature_names 0;
  fin_shap ← shap_sum financial_features contributions 0 feature_names 0;
  (* Normalize to 0-25 scale (inverse for weather risk) *)
  let total_abs :=
    Num.fadd (Num.fadd (Num.fadd (Qabs weather_shap) (Qabs infra_shap))
                (Qabs div_shap))
      (Qabs fin_shap) in
  if negb (Qle_bool total_abs 0) then
    Ok {| weather_risk :=
            Num.int (Num.clip
              (Num.fsub 12.5 (Num.fmul (Num.fdiv weather_shap total_abs) 12.5))
              0 25);
          infrastructure :=
            Num.int (Num.clip
              (Num.fadd 12.5 (Num.fmul (Num.fdiv infra_shap total_abs) 12.5))
              0 25);
          diversification :=
            Num.int (Num.clip
              (Num.fadd 12.5 (Num.fmul (Num.fdiv div_shap total_abs) 12.5))
              0 25);
          financial_health :=
            Num.int (Num.clip
              (Num.fadd 12.5 (Num.fmul (Num.fdiv fin_shap total_abs) 12.5))
              0 25) |}
  else
    Ok {| weather_risk := 12; infrastructure := 12;
          diversification := 12; financial_health := 12 |}.

(** ** Python's [sorted(l, key=..., reverse=True)]

    A stable sort: elements with equal keys keep their input order, also
    when the order is reversed. *)

Fixpoint insert_desc {A} (key : A → Q) (x : A) (l : list A) : list A :=
  match l with
  | [] => [x]
  | y :: l' =>
      if Qle_bool (key y) (key x) then x :: l else y :: insert_desc key x l'
  end.

Definition sorted_desc {A} (key : A → Q) (l : list A) : list A :=
  foldr (insert_desc key) [] l.

(** [[i for i, col in enumerate(names) if col in cats]], counted from [i0]. *)
Fixpoint indices_in (cats : list string) (i0 : nat) (names : list string)
  : list nat :=
  match names with
  | [] => []
  | f :: names' =>
      if bool_decide (f ∈ cats) then i0 :: indices_in cats (S i0) names'
      else indices_in cats (S i0) names'
  end.

(** ** Scoring: the category of a risk score *)

(** [int(np.clip((1 - prob_claim) * 100, 0, 100))] *)
Definition risk_score_of (prob_claim : Q) : Z :=
  Num.int (Num.clip (Num.fmul (Num.fsub 1 prob_claim) 100) 0 100).

Definition categorize (risk_score : Z) : string * string :=
  if (75 <=? risk_score)%Z then ("low", "Low Risk (Safe)")
  else if (50 <=? risk_score)%Z then ("medium", "Moderate Risk")
  else if (25 <=? risk_score)%Z then ("high", "High Risk")
  else ("high", "Critical Risk").

Record RiskReport := {
  farmer_id : value;
  risk_score : Z;
  risk_category : string;
  category_label : string;
  claim_probability : Q;
  confidence : string;
  breakdown : Breakdown;
  top_risk_drivers : list (string * Q);
  top_protective_factors : list (string * Q);
}.

(** ** The model object *)

Section Model.
Context `{L : Library}.

(** What [self.model] can hold: a [CatBoostClassifier] as it is
    constructed, or after its [fit] has returned. *)
Inductive catboost_classifier :=
| Unfitted
| Fitted (m : Estimator).

(** What [self.calibrated_model] can hold: the calibrated wrapper around
    the estimator or, after the fallback [self.calibrated_model =
    self.model], the estimator itself. *)
Inductive classifier :=
| RawModel (m : Estimator)
| CalibratedModel (m : Estimator) (c : Calibrator).

(** The attributes set by [__init__]. *)
Record ProductionAgriRiskModel := {
  model : option catboost_classifier;
  calibrated_model : option classifier;
  feature_names : option (list string);
  categorical_features_of : option (list string);
  numerical_features_of : option (list string);
  metrics : gmap string (option Q);
  feature_importance : list (string * Q);
}.

Definition __init__ : ProductionAgriRiskModel :=
  {| model := None; calibrated_model := None; feature_names := None;
     categorical_features_of := None; numerical_features_of := None;
     metrics := ∅; feature_importance := [] |}.

(** Assignments to the attributes of [self]. *)
Definition set_model (v : option catboost_classifier)
    (self : ProductionAgriRiskModel) : ProductionAgriRiskModel :=
  {| model := v; calibrated_model := calibrated_model self;
     feature_names := feature_names self;
     categorical_features_of := categorical_features_of self;
     numerical_features_of := numerical_features_of self;
     metrics := metrics self;
     feature_importance := feature_importance self |}.

Definition set_calibrated_model (v : option classifier)
    (self : ProductionAgriRiskModel) : ProductionAgriRiskModel :=
  {| model := model self; calibrated_model := v;
     feature_names := feature_names self;
     categorical_features_of := categorical_features_of self;
     numerical_features_of := numerical_features_of self;
     metrics := metrics self;
     feature_importance := feature_importance self |}.

Definition set_features (names cats : list string)
    (self : ProductionAgriRiskModel) : ProductionAgriRiskModel :=
  {| model := model self; calibrated_model := calibrated_model self;
     feature_names := Some names;
     categorical_features_of := Some cats;
     numerical_features_of := Some (filter (λ f, f ∉ cats) names);
     metrics := metrics self;
     feature_importance := feature_importance self |}.

Definition set_metrics (v : gmap string (option Q))
    (self : ProductionAgriRiskModel) : ProductionAgriRiskModel :=
  {| model := model self; calibrated_model := calibrated_model self;
     feature_names := feature_names self;
     categorical_features_of := categorical_features_of self;
     numerical_features_of := numerical_features_of self;
     metrics := v;
     feature_importance := feature_importance self |}.

Definition set_feature_importance (v : list (string * Q))
    (self : ProductionAgriRiskModel) : ProductionAgriRiskModel :=
  {| model := model self; calibrated_model := calibrated_model self;
     feature_names := feature_names self;
     categorical_features_of := categorical_features_of self;
     numerical_features_of := numerical_features_of self;
     metrics := metrics self;
     feature_importance := v |}.

(** [clf.predict_proba(X)[:, 1]] *)
Definition predict_proba (clf : classifier) (X : Matrix) : result (list Q) :=
  match clf with
  | RawModel m => catboost (catboost_predict_proba m X)
  | CalibratedModel m c => catboost (calibrated_predict_proba m c X)
  end.

(** The [try] block of [train]: the calibrated wrapper of the estimator
    when its fit returns, the estimator itself when anything is raised. *)
Definition try_calibrate (m : Estimator) (X_test : Matrix) (y_test : column)
  : classifier :=
  match calibrator_fit m X_test y_test with
  | inr c => CalibratedModel m c
  | inl _ => RawModel m
  end.

(** *** Methods that update [self]

    A method body is a state transformer over the object that can raise;
    the attributes assigned before an exception stay assigned. *)
Definition Py (A : Type) : Type :=
  ProductionAgriRiskModel → result A * ProductionAgriRiskModel.

Definition py_ret {A} (a : A) : Py A := λ self, (Ok a, self).

Definition py_bind {A B} (m : Py A) (k : A → Py B) : Py B :=
  λ self,
    match m self with
    | (inr a, self') => k a self'
    | (inl e, self') => (inl e, self')
    end.

Definition py_lift {A} (r : result A) : Py A := λ self, (r, self).

Definition py_update (f : ProductionAgriRiskModel → ProductionAgriRiskModel)
  : Py unit := λ self, (Ok tt, f self).

Definition py_self : Py ProductionAgriRiskModel := λ self, (Ok self, self).

#[local] Instance py_mret : MRet Py := @py_ret.
#[local] Instance py_mbind : MBind Py := λ A B k m, py_bind m k.

(** [tn, fp, fn, tp = cm.ravel()] *)
Definition unpack4 (l : list Z) : result (Z * Z * Z * Z) :=
  match l with
  | [a; b; c; d] => Ok (a, b, c, d)
  | [] | [_] | [_; _] | [_; _; _] =>
      raise ValueError "not enough values to unpack (expected 4)"
  | _ => raise ValueError "too many values to unpack (expected 4)"
  end.

(** [_plot_feature_importance]: the unpacking
    [features, importances = zip( *sorted_features)] needs at least one
    feature. *)
Definition _plot_feature_importance : Py unit :=
  self ← py_self;
  match take 15 (sorted_desc snd (feature_importance self)) with
  | [] => py_lift (raise ValueError "not enough values to unpack (expected 2, got 0)")
  | _ => py_ret tt
  end.

(** [_plot_calibration_curve(y_true, y_prob)] *)
Definition _plot_calibration_curve (y_true : column) (y_prob : list Q)
  : Py unit :=
  py_lift (calibration_curve y_true y_prob).

(** [train(df, target_col)] *)
Definition train (df : gmap string column) (target_col : string)
  : Py (gmap string (option Q)) :=
  '(X, names, cats) ← py_lift (prepare_features df);
  y ← py_lift (get df target_col);
  py_update (set_features names cats);;
  (* the claim rate that is printed *)
  _ ← py_lift (numpy_mean y);
  (* 3-way split: 70% train, 15% validation, 15% test *)
  '((X_train, X_temp), (y_train, y_temp)) ←
     py_lift (train_test_split X y 0.3);
  '((X_val, X_test), (y_val, y_test)) ←
     py_lift (train_test_split X_temp y_temp 0.5);
  let cat_feature_indices := indices_in cats 0 names in
  train_pool ←
    py_lift (catboost (catboost_pool X_train (Some y_train)
                         cat_feature_indices));
  val_pool ←
    py_lift (catboost (catboost_pool X_val (Some y_val) cat_feature_indices));
  _ ← py_lift (catboost (catboost_pool X_test (Some y_test)
                           cat_feature_indices));
  py_update (set_model (Some Unfitted));;
  m ← py_lift (catboost (catboost_fit train_pool val_pool));
  py_update (set_model (Some (Fitted m)));;
  (* calibration on the test split, falling back to the raw model *)
  let clf := try_calibrate m X_test y_test in
  py_update (set_calibrated_model (Some clf));;
  (* evaluation on the test split *)
  y_prob ← py_lift (predict_proba clf X_test);
  let y_pred := (λ p, Qle_bool 0.5 p) <$> y_prob in
  auc ← py_lift (roc_auc_score y_test y_prob);
  brier ← py_lift (brier_score_loss y_test y_prob);
  cm ← py_lift (confusion_matrix y_test y_pred);
  '(tn, fp, fn, tp) ← py_lift (unpack4 cm);
  let precision :=
    if (0 <? tp + fp)%Z
    then Num.fdiv (inject_Z tp) (inject_Z (tp + fp)) else 0 in
  let recall :=
    if (0 <? tp + fn)%Z
    then Num.fdiv (inject_Z tp) (inject_Z (tp + fn)) else 0 in
  let f1 :=
    if negb (Qle_bool (Num.fadd precision recall) 0)
    then Num.fdiv (Num.fmul 2 (Num.fmul precision recall))
                  (Num.fadd precision recall)
    else 0 in
  py_update (set_metrics
    (<["accuracy" :=
         Num.float64 <$>
         Num.div (inject_Z (tp + tn)) (inject_Z (tp + tn + fp + fn))]>
     (<["f1_score" := Some f1]>
     (<["recall" := Some recall]>
     (<["precision" := Some precision]>
     (<["brier_score" := Some brier]>
     (<["auc" := Some auc]> ∅)))))));;
  (* feature importance *)
  importance ← py_lift (catboost (get_feature_importance m train_pool));
  py_update (set_feature_importance (zip names importance));;
  (* visualization *)
  _plot_feature_importance;;
  _plot_calibration_curve y_test y_prob;;
  self ← py_self;
  py_ret (metrics self).

(** [predict_risk_score(farm_data)]; it reads [self] and never assigns. *)
Definition predict_risk_score (self : ProductionAgriRiskModel)
    (farm_data : gmap string value) : result RiskReport :=
  match calibrated_model self with
  | None => raise ValueError "Model not trained. Call train() first."
  | Some clf =>
      (* Convert to DataFrame, prepare features *)
      let input_df := of_record farm_data in
      '(X_processed, _, _) ← prepare_features input_df;
      (* Get calibrated probability *)
      y_prob ← predict_proba clf X_processed;
      prob_claim ← match y_prob !! 0%nat with
                   | Some p => Ok p
                   | None => raise IndexError "index 0 is out of bounds"
                   end;
      (* Risk score (0-100, higher = safer) *)
      let risk_score := risk_score_of prob_claim in
      let '(risk_category, category_label) := categorize risk_score in
      (* SHAP values (feature contributions) *)
      names ← match feature_names self with
              | Some names => Ok names
              | None => raise TypeError "'NoneType' object is not iterable"
              end;
      cats ← match categorical_features_of self with
             | Some cats => Ok cats
             | None =>
                 match names with
                 | [] => Ok []
                 | _ => raise TypeError
                          "argument of type 'NoneType' is not iterable"
                 end
             end;
      let cat_feature_indices := indices_in cats 0 names in
      pool ← catboost (catboost_pool X_processed None cat_feature_indices);
      m ← match model self with
          | Some (Fitted m) => Ok m
          | Some Unfitted => raise CatBoostError "Model is not fitted"
          | None => raise AttributeError "get_feature_importance"
          end;
      shap ← catboost (shap_values m pool);
      (* Extract contributions (last column is bias) *)
      row ← match shap !! 0%nat with
            | Some row => Ok row
            | None => raise IndexError "index 0 is out of bounds"
            end;
      let contributions := removelast row in
      breakdown ← _calculate_breakdown names contributions;
      (* Top risk factors (positive SHAP = increases risk) *)
      let feature_impacts := zip names contributions in
      let risk_drivers :=
        take 3 (sorted_desc snd
                  (filter (λ fc, 0 < fc.2) feature_impacts)) in
      let protective_factors :=
        take 3 (sorted_desc snd
                  ((λ fc, (fc.1, Qabs fc.2)) <$>
                   filter (λ fc, fc.2 < 0) feature_impacts)) in
      Ok {| farmer_id := default (VStr "Unknown") (farm_data !! "farmer_id");
            risk_score := risk_score;
            risk_category := risk_category;
            category_label := category_label;
            claim_probability := Num.round_nd (Num.fmul prob_claim 100) 2;
            confidence := "high";
            breakdown := breakdown;
            top_risk_drivers :=
              (λ fc, (fc.1, Num.round_nd fc.2 3)) <$> risk_drivers;
            top_protective_factors :=
              (λ fc, (fc.1, Num.round_nd fc.2 3)) <$> protective_factors |}
  end.

End Model.

(** ** Farm records

    The fields [prepare_features] reads, typed as the serving schema types
    them; [None] is a field whose value is NaN. *)

Module Farm.

Record t := {
  farmer_id : option string;
  state : option string;
  season : option string;
  year : option Q;
  crop_type : option string;
  land_acres : option Q;
  irrigation_type : option string;
  water_source_count : option Q;
  borewell_count : option Q;
  borewell_depth_ft : option Q;
  has_canal_access : option bool;
  crop_count : option Q;
  has_livestock : option bool;
  livestock_count : option Q;
  owns_tractor : option bool;
  has_storage : option bool;
  kcc_score : option Q;
  kcc_repayment_rate : option Q;
  outstanding_debt_ratio : option Q;
  has_insurance_history : option bool;
  rainfall_deficit_pct : option Q;
  actual_rainfall_mm : option Q;
  heatwave_days : option Q;
  monsoon_reliability : option Q;
  ndvi_score : option Q;
  soil_moisture_percent : option Q;
  soil_fertility_index : option Q;
}.

Definition num (x : option Q) : value :=
  match x with Some q => VNum q | None => VNaN end.
Definition str (x : option string) : value :=
  match x with Some s => VStr s | None => VNaN end.
Definition flag (x : option bool) : value :=
  match x with Some b => VBool b | None => VNaN end.

(** The dict handed to [predict_risk_score]. *)
Definition to_dict (r : t) : gmap string value :=
  list_to_map
    [("farmer_id", str (farmer_id r)); ("state", str (state r));
     ("season", str (season r)); ("year", num (year r));
     ("crop_type", str (crop_type r)); ("land_acres", num (land_acres r));
     ("irrigation_type", str (irrigation_type r));
     ("water_source_count", num (water_source_count r));
     ("borewell_count", num (borewell_count r));
     ("borewell_depth_ft", num (borewell_depth_ft r));
     ("has_canal_access", flag (has_canal_access r));
     ("crop_count", num (crop_count r));
     ("has_livestock", flag (has_livestock r));
     ("livestock_count", num (livestock_count r));
     ("owns_tractor", flag (owns_tractor r));
     ("has_storage", flag (has_storage r));
     ("kcc_score", num (kcc_score r));
     ("kcc_repayment_rate", num (kcc_repayment_rate r));
     ("outstanding_debt_ratio", num (outstanding_debt_ratio r));
     ("has_insurance_history", flag (has_insurance_history r));
     ("rainfall_deficit_pct", num (rainfall_deficit_pct r));
     ("actual_rainfall_mm", num (actual_rainfall_mm r));
     ("heatwave_days", num (heatwave_days r));
     ("monsoon_reliability", num (monsoon_reliability r));
     ("ndvi_score", num (ndvi_score r));
     ("soil_moisture_percent", num (soil_moisture_percent r));
     ("soil_fertility_index", num (soil_fertility_index r))].

(** The frame of a batch of records, one column per field. *)
Definition nums (f : t → option Q) (rs : list t) : column :=
  NumCol (f <$> rs).
Definition strs (f : t → option string) (rs : list t) : column :=
  StrCol (f <$> rs).
Definition flags (f : t → option bool) (rs : list t) : column :=
  NumCol ((λ r, Num.of_bool <$> f r) <$> rs).

Definition to_frame (rs : list t) : gmap string column :=
  list_to_map
    [("farmer_id", strs farmer_id rs); ("state", strs state rs);
     ("season", strs season rs); ("year", nums year rs);
     ("crop_type", strs crop_type rs); ("land_acres", nums land_acres rs);
     ("irrigation_type", strs irrigation_type rs);
     ("water_source_count", nums water_source_count rs);
     ("borewell_count", nums borewell_count rs);
     ("borewell_depth_ft", nums borewell_depth_ft rs);
     ("has_canal_access", flags has_canal_access rs);
     ("crop_count", nums crop_count rs);
     ("has_livestock", flags has_livestock rs);
     ("livestock_count", nums livestock_count rs);
     ("owns_tractor", flags owns_tractor rs);
     ("has_storage", flags has_storage rs);
     ("kcc_score", nums kcc_score rs);
     ("kcc_repayment_rate", nums kcc_repayment_rate rs);
     ("outstanding_debt_ratio", nums outstanding_debt_ratio rs);
     ("has_insurance_history", flags has_insurance_history rs);
     ("rainfall_deficit_pct", nums rainfall_deficit_pct rs);
     ("actual_rainfall_mm", nums actual_rainfall_mm rs);
     ("heatwave_days", nums heatwave_days rs);
     ("monsoon_reliability", nums monsoon_reliability rs);
     ("ndvi_score", nums ndvi_score rs);
     ("soil_moisture_percent", nums soil_moisture_percent rs);
     ("soil_fertility_index", nums soil_fertility_index rs)].

End Farm.

(** ** A stand-in for the libraries

    The examples below run the model, so they need some instance of
    [Library].  [Toy.library] is the simplest one: an estimator that
    predicts one fixed probability and one fixed row of contributions,
    a split that hands every part the whole data, an isotonic map that is
    the identity when its fit succeeds, and [log1p] replaced by the
    identity.  Like scikit-learn, its [roc_auc_score] insists on labels of
    two classes, and its [brier_score_loss] and [calibration_curve] on
    labels taken from 0 and 1.  Nothing is proved about catboost or
    scikit-learn through it; every theorem about the model holds for all
    instances. *)

Module Toy.

Definition nrows (X : Matrix) : nat :=
  match X with [] => 0%nat | (_, c) :: _ => col_length c end.

(** The labels hold two classes at least. *)
Definition two_classes (y : column) : bool :=
  match omap id (keys y) with
  | [] => false
  | k :: ks => negb (forallb (key_eqb k) ks)
  end.

(** Every label is 0 or 1. *)
Definition binary (y : column) : bool :=
  match y with
  | NumCol l =>
      forallb (λ x, match x with
                    | Some q => Qeq_bool q 0 || Qeq_bool q 1
                    | None => false
                    end) l
  | StrCol _ => false
  end.

Definition library (prob : Q) (shap_row : list Q) (calibration_fails : bool)
  : Library :=
  {| Estimator := unit;
     Calibrator := unit;
     Pool := Matrix;
     log1p := λ x, Some x;
     numpy_mean := λ y,
       match y with
       | NumCol l => Ok (mean l)
       | StrCol _ =>
           raise TypeError "unsupported operand type(s) for /: 'str' and 'int'"
       end;
     train_test_split := λ X y _, Ok ((X, X), (y, y));
     catboost_pool := λ X _ _, inr X;
     catboost_fit := λ _ _, inr tt;
     catboost_predict_proba := λ _ X, inr (replicate (nrows X) prob);
     calibrator_fit := λ _ _ _,
       if calibration_fails
       then raise ValueError "isotonic fit failed" else Ok tt;
     calibrated_predict_proba := λ _ _ X, inr (replicate (nrows X) prob);
     roc_auc_score := λ y _,
       if two_classes y then Ok 1
       else raise ValueError "Only one class present in y_true";
     brier_score_loss := λ y _,
       if binary y then Ok 0
       else raise ValueError "pos_label is not specified";
     confusion_matrix := λ _ _, Ok [1; 0; 0; 1]%Z;
     get_feature_importance := λ _ X, inr (replicate (length X) 1);
     shap_values := λ _ X, inr (replicate (nrows X) shap_row);
     calibration_curve := λ y _,
       if binary y then Ok tt
       else raise ValueError "pos_label is not specified" |}.

(** A farm with every field present. *)
Definition farm : Farm.t :=
  {| Farm.farmer_id := Some "F001"%string;
     Farm.state := Some "Punjab"%string;
     Farm.season := Some "kharif"%string;
     Farm.year := Some 2024;
     Farm.crop_type := Some "rice"%string;
     Farm.land_acres := Some 3;
     Farm.irrigation_type := Some "drip"%string;
     Farm.water_source_count := Some 2;
     Farm.borewell_count := Some 1;
     Farm.borewell_depth_ft := Some 120;
     Farm.has_canal_access := Some true;
     Farm.crop_count := Some 2;
     Farm.has_livestock := Some true;
     Farm.livestock_count := Some 3;
     Farm.owns_tractor := Some false;
     Farm.has_storage := Some true;
     Farm.kcc_score := Some 700;
     Farm.kcc_repayment_rate := Some 90;
     Farm.outstanding_debt_ratio := Some 0.3;
     Farm.has_insurance_history := Some true;
     Farm.rainfall_deficit_pct := Some 0.1;
     Farm.actual_rainfall_mm := Some 800;
     Farm.heatwave_days := Some 5;
     Farm.monsoon_reliability := Some 0.8;
     Farm.ndvi_score := Some 0.6;
     Farm.soil_moisture_percent := Some 30;
     Farm.soil_fertility_index := Some 0.6 |}.

Definition with_rainfall (x : Q) (r : Farm.t) : Farm.t :=
  {| Farm.farmer_id := Farm.farmer_id r; Farm.state := Farm.state r;
     Farm.season := Farm.season r; Farm.year := Farm.year r;
     Farm.crop_type := Farm.crop_type r; Farm.land_acres := Farm.land_acres r;
     Farm.irrigation_type := Farm.irrigation_type r;
     Farm.water_source_count := Farm.water_source_count r;
     Farm.borewell_count := Farm.borewell_count r;
     Farm.borewell_depth_ft := Farm.borewell_depth_ft r;
     Farm.has_canal_access := Farm.has_canal_access r;
     Farm.crop_count := Farm.crop_count r;
     Farm.has_livestock := Farm.has_livestock r;
     Farm.livestock_count := Farm.livestock_count r;
     Farm.owns_tractor := Farm.owns_tractor r;
     Farm.has_storage := Farm.has_storage r;
     Farm.kcc_score := Farm.kcc_score r;
     Farm.kcc_repayment_rate := Farm.kcc_repayment_rate r;
     Farm.outstanding_debt_ratio := Farm.outstanding_debt_ratio r;
     Farm.has_insurance_history := Farm.has_insurance_history r;
     Farm.rainfall_deficit_pct := Farm.rainfall_deficit_pct r;
     Farm.actual_rainfall_mm := Some x;
     Farm.heatwave_days := Farm.heatwave_days r;
     Farm.monsoon_reliability := Farm.monsoon_reliability r;
     Farm.ndvi_score := Farm.ndvi_score r;
     Farm.soil_moisture_percent := Farm.soil_moisture_percent r;
     Farm.soil_fertility_index := Farm.soil_fertility_index r |}.

Definition with_satellite (ndvi moisture : option Q) (r : Farm.t) : Farm.t :=
  {| Farm.farmer_id := Farm.farmer_id r; Farm.state := Farm.state r;
     Farm.season := Farm.season r; Farm.year := Farm.year r;
     Farm.crop_type := Farm.crop_type r; Farm.land_acres := Farm.land_acres r;
     Farm.irrigation_type := Farm.irrigation_type r;
     Farm.water_source_count := Farm.water_source_count r;
     Farm.borewell_count := Farm.borewell_count r;
     Farm.borewell_depth_ft := Farm.borewell_depth_ft r;
     Farm.has_canal_access := Farm.has_canal_access r;
     Farm.crop_count := Farm.crop_count r;
     Farm.has_livestock := Farm.has_livestock r;
     Farm.livestock_count := Farm.livestock_count r;
     Farm.owns_tractor := Farm.owns_tractor r;
     Farm.has_storage := Farm.has_storage r;
     Farm.kcc_score := Farm.kcc_score r;
     Farm.kcc_repayment_rate := Farm.kcc_repayment_rate r;
     Farm.outstanding_debt_ratio := Farm.outstanding_debt_ratio r;
     Farm.has_insurance_history := Farm.has_insurance_history r;
     Farm.rainfall_deficit_pct := Farm.rainfall_deficit_pct r;
     Farm.actual_rainfall_mm := Farm.actual_rainfall_mm r;
     Farm.heatwave_days := Farm.heatwave_days r;
     Farm.monsoon_reliability := Farm.monsoon_reliability r;
     Farm.ndvi_score := ndvi;
     Farm.soil_moisture_percent := moisture;
     Farm.soil_fertility_index := Farm.soil_fertility_index r |}.

(** A training set of twenty farms of one state, half of which filed a
    claim; their vegetation index is 0.6 throughout. *)
Definition farms : list Farm.t :=
  (λ i : nat, with_rainfall (inject_Z (Z.of_nat (600 + 20 * i))) farm)
    <$> seq 0 20.

Definition labels : series :=
  (λ i : nat, Some (Num.of_bool (Nat.even i))) <$> seq 0 20.

Definition dataset : gmap string column :=
  <["claim_filed" := NumCol labels]> (Farm.to_frame farms).

(** The same farms, none of which filed a claim. *)
Definition one_class_dataset : gmap string column :=
  <["claim_filed" := NumCol (replicate 20 (Some 0))]> (Farm.to_frame farms).

(** One contribution per feature and the bias: irrigation and credit
    history protect, the rainfall deficit and debt drive the risk. *)
Definition shap_row : list Q :=
  Num.float64 <$>
  [0; 0; 0.4; 0.1; 0; 0; 0; 0; 0; 0; 0; 0; 0; 0; 0; 0; -0.3; 0.2]
  ++ replicate 25 0 ++ [0; 0.1; -0.25; 0] ++ [0.7].

End Toy.

(** Examples of the model at work: a bundle trained on [Toy.dataset] with
    a given library, and the dict of a farm. *)
Definition trained_with (L : Library) : ProductionAgriRiskModel :=
  snd (train Toy.dataset "claim_filed" __init__).

(** [save] writes the pickled object and, beside it, this summary
    ([metadata]) as JSON. *)
Record Metadata := {
  md_feature_names : option (list string);
  md_categorical_features : option (list string);
  md_numerical_features : option (list string);
  md_metrics : gmap string (option Q);
  md_feature_importance : list (string * Q);
}.

Definition metadata_of `{L : Library} (self : ProductionAgriRiskModel)
  : Metadata :=
  {| md_feature_names := feature_names self;
     md_categorical_features := categorical_features_of self;
     md_numerical_features := numerical_features_of self;
     md_metrics := metrics self;
     md_feature_importance := feature_importance self |}.

(** The running example: a library whose estimator answers the float64
    nearest to 0.004, the bundle trained with it, a farm, and the report
    the bundle returns for that farm. *)
Definition example_library : Library :=
  Toy.library (Num.float64 0.004) Toy.shap_row false.

Definition example_bundle : ProductionAgriRiskModel :=
  trained_with example_library.

Definition example_record : gmap string value := Farm.to_dict Toy.farm.

Definition example_report : RiskReport :=
  {| farmer_id := VStr "F001";
     risk_score := 99;
     risk_category := "low";
     category_label := "Low Risk (Safe)";
     claim_probability := Num.float64 0.40;
     confidence := "high";
     breakdown :=
       {| weather_risk := 5; infrastructure := 9;
          diversification := 13; financial_health := 11 |};
     top_risk_drivers :=
       [("rainfall_deficit_pct", Num.float64 0.400);
        ("outstanding_debt_ratio", Num.float64 0.200);
        ("heatwave_days", Num.float64 0.100)]%string;
     top_protective_factors :=
       [("kcc_repayment_rate", Num.float64 0.300);
        ("irrigation_type", Num.float64 0.250)]%string |}.

(** [a] comes no later than [b] in a descending order of keys. *)
Definition desc {A} (key : A → Q) (a b : A) : Prop := key b <= key a.

(** The lists behind the two rankings of a report. *)
Definition risk_increasing (names : list string) (contributions : list Q)
  : list (string * Q) :=
  filter (λ fc, 0 < fc.2) (zip names contributions).

Definition risk_decreasing (names : list string) (contributions : list Q)
  : list (string * Q) :=
  (λ fc, (fc.1, Qabs fc.2)) <$>
  filter (λ fc, fc.2 < 0) (zip names contributions).

(** The same training run with a calibration fit that raises. *)
Definition fallback_library : Library :=
  Toy.library (Num.float64 0.004) Toy.shap_row true.

Definition fallback_bundle : ProductionAgriRiskModel :=
  trained_with fallback_library.

Definition metric_names : gset string :=
  {["accuracy"; "f1_score"; "recall"; "precision"; "brier_score"; "auc"]}%string.

(** A record whose [owns_tractor] flag is NaN. *)
Definition invalid_record : gmap string value :=
  <["owns_tractor" := VNaN]> example_record.

(** The exceptions feature engineering can raise: a missing column, a
    column of strings where numbers are needed, a NaN where an integer is
    needed. *)
Definition feature_error (e : exn) : Prop :=
  exn_type e = KeyError ∨ exn_type e = TypeError
  ∨ e = Raise ValueError
          "Cannot convert non-finite values (NA or inf) to integer".

Definition not_trained : exn :=
  Raise ValueError "Model not trained. Call train() first.".

(** The columns [prepare_features] reads from the frame it is given, and
    the columns it adds before the selection. *)
Definition raw_columns : list string :=
  ["state"; "season"; "year"; "crop_type"; "land_acres"; "irrigation_type";
   "water_source_count"; "borewell_count"; "borewell_depth_ft";
   "has_canal_access"; "crop_count"; "has_livestock"; "livestock_count";
   "owns_tractor"; "has_storage"; "kcc_score"; "kcc_repayment_rate";
   "outstanding_debt_ratio"; "has_insurance_history";
   "rainfall_deficit_pct"; "actual_rainfall_mm"; "heatwave_days";
   "monsoon_reliability"; "ndvi_score"; "soil_moisture_percent";
   "soil_fertility_index"]%string.

Definition engineered_columns : list string :=
  ["irrigation_x_drought"; "tractor_x_land"; "debt_x_drought";
   "diversification_x_weather"; "irrigation_score"; "water_security_index";
   "financial_health_index"; "diversification_index";
   "weather_stress_index"; "vegetation_health_score"; "soil_quality_score";
   "is_rainfed"; "is_high_risk_crop"; "is_marginal_farmer";
   "is_single_crop"; "has_deep_borewell"; "is_drought_year";
   "is_flood_year"; "has_financial_stress"; "year_ordinal";
   "is_kharif_season"; "rainfall_deviation_from_state"]%string.

(** Two frames hold the same columns under the names in [S]. *)
Definition agree (S : list string) (df1 df2 : gmap string column) : Prop :=
  ∀ k, k ∈ S → df1 !! k = df2 !! k.

(** Two runs end alike: with the same exception, or with frames that
    agree on [S]. *)
Definition agree_results (S : list string)
    (r1 r2 : result (gmap string column)) : Prop :=
  match r1, r2 with
  | inr a, inr b => agree S a b
  | inl e1, inl e2 => e1 = e2
  | _, _ => False
  end.

(** The example record with one more entry, the time of the request. *)
Definition stamped_record : gmap string value :=
  <["scored_at" := VNum 1700000000]> example_record.

(** The example farm on a cloudy day: no vegetation index and no soil
    moisture. *)
Definition cloudy_record : gmap string value :=
  Farm.to_dict (Toy.with_satellite None None Toy.farm).

(** ** Persistence: [save] and [load]

    The file system is a map from paths to what was written there.
    [joblib.dump] pickles the object; the metadata go to the path with
    every [.pkl] replaced by [_metadata.json]. *)

Module Storage.

(** [s.startswith(p)] *)
Fixpoint starts_with (p s : string) : bool :=
  match p, s with
  | EmptyString, _ => true
  | String a p', String b s' => if Ascii.eqb a b then starts_with p' s' else false
  | String _ _, EmptyString => false
  end.

(** [s[n:]] *)
Fixpoint skip (n : nat) (s : string) : string :=
  match n, s with
  | O, _ => s
  | S n', String _ s' => skip n' s'
  | S _, EmptyString => EmptyString
  end.

(** [s.replace(old, new)] for a non-empty [old]: every occurrence, found
    from the left, none overlapping.  [fuel] bounds the characters left to
    scan. *)
Fixpoint replace_aux (fuel : nat) (old new s : string) : string :=
  match fuel with
  | O => s
  | S fuel' =>
      match s with
      | EmptyString => EmptyString
      | String c s' =>
          if starts_with old s
          then new +:+ replace_aux fuel' old new (skip (String.length old) s)
          else String c (replace_aux fuel' old new s')
      end
  end.

Definition replace (old new s : string) : string :=
  replace_aux (String.length s) old new s.

Definition metadata_path (path : string) : string :=
  replace ".pkl" "_metadata.json" path.

Section Files.
Context `{L : Library}.

Inductive file :=
| Pickle (self : ProductionAgriRiskModel)
| Json (metadata : Metadata).

(** [self.save(path)]: the pickle first, the metadata after it. *)
Definition save (self : ProductionAgriRiskModel) (path : string)
    (fs : gmap string file) : gmap string file :=
  let fs := <[path := Pickle self]> fs in
  <[metadata_path path := Json (metadata_of self)]> fs.

Inductive load_error :=
| FileNotFound (path : string)
| NotAPickle (path : string)
| MissingMetric (name : string).

(** [ProductionAgriRiskModel.load(path)]: unpickle, then print the AUC
    and the Brier score of the model, which must be among its metrics. *)
Definition load (path : string) (fs : gmap string file)
  : load_error + ProductionAgriRiskModel :=
  match fs !! path with
  | None => inl (FileNotFound path)
  | Some (Json _) => inl (NotAPickle path)
  | Some (Pickle model) =>
      match metrics model !! "auc"%string with
      | None => inl (MissingMetric "auc")
      | Some _ =>
          match metrics model !! "brier_score"%string with
          | None => inl (MissingMetric "brier_score")
          | Some _ => inr model
          end
      end
  end.

End Files.

End Storage.

(** ** The serving boundary of [ml/api_server.py] *)

Module Api.

(** [PredictionInput]; an [Optional] field left as [None] is [None]. *)
Record PredictionInput := {
  state : string;
  season : string;
  year : option Q;
  crop_type : string;
  land_acres : Q;
  irrigation_type : string;
  water_source_count : Q;
  borewell_count : option Q;
  borewell_depth_ft : Q;
  has_canal_access : option bool;
  crop_count : Q;
  has_livestock : bool;
  livestock_count : Q;
  owns_tractor : option bool;
  has_storage : option bool;
  kcc_score : option Q;
  kcc_repayment_rate : Q;
  outstanding_debt_ratio : Q;
  has_insurance_history : bool;
  rainfall_deficit_percent : Q;
  actual_rainfall_mm : Q;
  heatwave_days : Q;
  avg_temperature_c : option Q;
  monsoon_reliability : Q;
  ndvi_score : Q;
  soil_moisture_percent : Q;
  soil_fertility_index : Q;
}.

(** [input_data.model_dump()]: one entry per field of the schema, under
    the name of the field. *)
Definition model_dump (i : PredictionInput) : gmap string value :=
  list_to_map
    [("state", VStr (state i)); ("season", VStr (season i));
     ("year", Farm.num (year i)); ("crop_type", VStr (crop_type i));
     ("land_acres", VNum (land_acres i));
     ("irrigation_type", VStr (irrigation_type i));
     ("water_source_count", VNum (water_source_count i));
     ("borewell_count", Farm.num (borewell_count i));
     ("borewell_depth_ft", VNum (borewell_depth_ft i));
     ("has_canal_access", Farm.flag (has_canal_access i));
     ("crop_count", VNum (crop_count i));
     ("has_livestock", VBool (has_livestock i));
     ("livestock_count", VNum (livestock_count i));
     ("owns_tractor", Farm.flag (owns_tractor i));
     ("has_storage", Farm.flag (has_storage i));
     ("kcc_score", Farm.num (kcc_score i));
     ("kcc_repayment_rate", VNum (kcc_repayment_rate i));
     ("outstanding_debt_ratio", VNum (outstanding_debt_ratio i));
     ("has_insurance_history", VBool (has_insurance_history i));
     ("rainfall_deficit_percent", VNum (rainfall_deficit_percent i));
     ("actual_rainfall_mm", VNum (actual_rainfall_mm i));
     ("heatwave_days", VNum (heatwave_days i));
     ("avg_temperature_c", Farm.num (avg_temperature_c i));
     ("monsoon_reliability", VNum (monsoon_reliability i));
     ("ndvi_score", VNum (ndvi_score i));
     ("soil_moisture_percent", VNum (soil_moisture_percent i));
     ("soil_fertility_index", VNum (soil_fertility_index i))].

(** What a handler answers: [HTTPException(503)] or a body with
    [success], [data] and [error]; [error] holds the exception whose text
    the handler returns. *)
Inductive http (A : Type) :=
| ServiceUnavailable (detail : string)
| Body (success : bool) (data : option A) (error : option exn).
Arguments ServiceUnavailable {A} detail.
Arguments Body {A} success data error.

Section Handlers.
Context `{L : Library}.

(** [POST /predict]; [model] is the global loaded at startup, [None] when
    loading failed. *)
Definition predict (model : option ProductionAgriRiskModel)
    (input_data : PredictionInput) : http RiskReport :=
  match model with
  | None => ServiceUnavailable "Model not loaded"
  | Some model =>
      match predict_risk_score model (model_dump input_data) with
      | inr result => Body true (Some result) None
      | inl e => Body false None (Some e)
      end
  end.

(** The loop of [POST /predict/batch]: the first exception ends it. *)
Fixpoint predict_all (model : ProductionAgriRiskModel)
    (inputs : list PredictionInput) : result (list RiskReport) :=
  match inputs with
  | [] => Ok []
  | input_data :: inputs' =>
      r ← predict_risk_score model (model_dump input_data);
      rs ← predict_all model inputs';
      Ok (r :: rs)
  end.

Definition predict_batch (model : option ProductionAgriRiskModel)
    (inputs : list PredictionInput) : http (list RiskReport) :=
  match model with
  | None => ServiceUnavailable "Model not loaded"
  | Some model =>
      match predict_all model inputs with
      | inr results => Body true (Some results) None
      | inl e => Body false None (Some e)
      end
  end.

End Handlers.

(** A request body that passes the schema. *)
Definition request : PredictionInput :=
  {| state := "Punjab"; season := "kharif"; year := Some 2024;
     crop_type := "rice"; land_acres := 3; irrigation_type := "drip";
     water_source_count := 2; borewell_count := Some 1;
     borewell_depth_ft := 120; has_canal_access := Some true;
     crop_count := 2; has_livestock := true; livestock_count := 3;
     owns_tractor := Some false; has_storage := Some true;
     kcc_score := Some 700; kcc_repayment_rate := 90;
     outstanding_debt_ratio := 0.3; has_insurance_history := true;
     rainfall_deficit_percent := 0.1; actual_rainfall_mm := 800;
     heatwave_days := 5; avg_temperature_c := None;
     monsoon_reliability := 0.8; ndvi_score := 0.6;
     soil_moisture_percent := 30; soil_fertility_index := 0.6 |}.

End Api.

(** ** Names used in the statements below *)

(** The raw numeric columns imputed by the plain median rule. *)
Definition median_imputed_raw : list string :=
  ["land_acres"; "actual_rainfall_mm"; "rainfall_deficit_pct";
   "heatwave_days"; "monsoon_reliability"; "soil_fertility_index";
   "water_source_count"; "crop_count"; "livestock_count"; "kcc_score";
   "kcc_repayment_rate"; "outstanding_debt_ratio"; "owns_tractor";
   "has_storage"; "has_livestock"; "has_canal_access";
   "has_insurance_history"]%string.

(** The features that count in the breakdown. *)
Definition bucket_features : list string :=
  weather_features ++ infrastructure_features
  ++ diversification_features ++ financial_features.

(** [old] occurs in [s]. *)
Definition occurs (old s : string) : Prop :=
  ∃ pre post, s = (pre +:+ old +:+ post)%string.


(** [p] is the probability of a claim that the classifier of the bundle
    gives for a record: the first entry of what [predict_proba] returns
    for the features of the one-row frame of the record. *)
Definition probability_of `{L : Library} (self : ProductionAgriRiskModel)
    (farm_data : gmap string value) (p : Q) : Prop :=
  ∃ clf X cols cats y_prob,
    calibrated_model self = Some clf
    ∧ prepare_features (of_record farm_data) = Ok (X, cols, cats)
    ∧ predict_proba clf X = Ok y_prob
    ∧ y_prob !! 0%nat = Some p.

(** [contributions] are the contributions of the features [names] of a
    record: the feature names of the bundle and the first row of the SHAP
    values that its estimator gives for the pool of the features of the
    record, without the bias that ends the row. *)
Definition shap_of `{L : Library} (self : ProductionAgriRiskModel)
    (farm_data : gmap string value) (names : list string)
    (contributions : list Q) : Prop :=
  ∃ X cols cats m pool shap row,
    prepare_features (of_record farm_data) = Ok (X, cols, cats)
    ∧ feature_names self = Some names
    ∧ catboost_pool X None
        (indices_in (default [] (categorical_features_of self)) 0 names)
      = inr pool
    ∧ model self = Some (Fitted m)
    ∧ shap_values m pool = inr shap
    ∧ shap !! 0%nat = Some row
    ∧ contributions = removelast row.

(** Every call that [train] makes outside its [try] block returns:
    feature engineering, the lookup of the label column and its mean, the
    two stratified splits, the three pools, the estimator fit,
    [predict_proba] on the test split, [roc_auc_score],
    [brier_score_loss], the confusion matrix and its four-way unpacking,
    the feature importance, its plot, which needs one feature at least,
    and [calibration_curve]. *)
Definition train_calls_return `{L : Library} (df : gmap string column)
    (target : string) (names cats : list string) (m : Estimator)
    (X_test : Matrix) (y_test : column) (auc brier : Q)
    (importance : list Q) : Prop :=
  ∃ X y mu X_train X_temp y_train y_temp X_val y_val
    train_pool val_pool test_pool y_prob tn fp fn tp,
    prepare_features df = Ok (X, names, cats)
    ∧ get df target = Ok y
    ∧ numpy_mean y = Ok mu
    ∧ train_test_split X y 0.3 = Ok ((X_train, X_temp), (y_train, y_temp))
    ∧ train_test_split X_temp y_temp 0.5
      = Ok ((X_val, X_test), (y_val, y_test))
    ∧ catboost_pool X_train (Some y_train) (indices_in cats 0 names)
      = inr train_pool
    ∧ catboost_pool X_val (Some y_val) (indices_in cats 0 names)
      = inr val_pool
    ∧ catboost_pool X_test (Some y_test) (indices_in cats 0 names)
      = inr test_pool
    ∧ catboost_fit train_pool val_pool = inr m
    ∧ predict_proba (try_calibrate m X_test y_test) X_test = Ok y_prob
    ∧ roc_auc_score y_test y_prob = Ok auc
    ∧ brier_score_loss y_test y_prob = Ok brier
    ∧ confusion_matrix y_test ((λ p, Qle_bool 0.5 p) <$> y_prob)
      = Ok [tn; fp; fn; tp]
    ∧ get_feature_importance m train_pool = inr importance
    ∧ zip names importance ≠ []
    ∧ calibration_curve y_test y_prob = Ok tt.

(** The training farms followed by the example farm on a cloudy day. *)
Definition farms_and_cloudy : list Farm.t :=
  Toy.farms ++ [Toy.with_satellite None None Toy.farm].

(** The example record without a credit score, and without a state. *)
Definition unscored_record : gmap string value :=
  <["kcc_score" := VNaN]> example_record.

Definition stateless_record : gmap string value :=
  <["state" := VNaN]> example_record.

(** * Properties *)

(** ** Numbers *)

Lemma Qle_bool_false (x y : Q) : Qle_bool x y = false → y < x.
Proof.
  intros H. apply Qnot_le_lt. intros Hle.
  apply Qle_bool_iff in Hle. congruence.
Qed.

Lemma clip_bounds (x lo hi : Q) : lo <= hi → lo <= Num.clip x lo hi <= hi.
Proof.
  intros Hlh. unfold Num.clip.
  destruct (Qle_bool x lo) eqn:E1; [split; [apply Qle_refl | done] |].
  destruct (Qle_bool hi x) eqn:E2; [split; [done | apply Qle_refl] |].
  apply Qle_bool_false in E1, E2. split; by apply Qlt_le_weak.
Qed.

Lemma clip_inside (x lo hi : Q) : lo <= x → x <= hi → Num.clip x lo hi == x.
Proof.
  intros H1 H2. unfold Num.clip.
  destruct (Qle_bool x lo) eqn:E1.
  { apply Qle_bool_iff in E1. by apply Qle_antisym. }
  destruct (Qle_bool hi x) eqn:E2; [|reflexivity].
  apply Qle_bool_iff in E2. by apply Qle_antisym.
Qed.

Lemma int_floor (x : Q) : 0 <= x → Num.int x = Qfloor x.
Proof.
  destruct x as [n d]. unfold Qle, Num.int, Qfloor. simpl. intros H.
  apply Z.quot_div_nonneg; lia.
Qed.

Lemma Qfloor_range (x : Q) (a b : Z) :
  inject_Z a <= x → x <= inject_Z b → (a ≤ Qfloor x ≤ b)%Z.
Proof.
  intros H1 H2. split.
  - rewrite <- (Qfloor_Z a). by apply Qfloor_resp_le.
  - rewrite <- (Qfloor_Z b). by apply Qfloor_resp_le.
Qed.

(** The integer kept from a clipped float is its floor and stays in the
    clipping range. *)
Lemma int_clip (x : Q) (hi : Z) :
  (0 ≤ hi)%Z →
  Num.int (Num.clip x 0 (inject_Z hi)) = Qfloor (Num.clip x 0 (inject_Z hi))
  ∧ (0 ≤ Num.int (Num.clip x 0 (inject_Z hi)) ≤ hi)%Z.
Proof.
  intros Hhi.
  assert (0 <= inject_Z hi) as H0.
  { change 0 with (inject_Z 0). rewrite <- Zle_Qle. done. }
  destruct (clip_bounds x 0 (inject_Z hi) H0) as [Hlo Hup].
  rewrite int_floor by done. split; [done|].
  by apply Qfloor_range.
Qed.

(** ** The result monad *)

Lemma bind_Ok {A B} (m : result A) (k : A → result B) a r :
  m = Ok a → k a = r → (m ≫= k) = r.
Proof. by intros -> <-. Qed.

Lemma bind_inv {A B} (m : result A) (k : A → result B) b :
  (m ≫= k) = Ok b → ∃ a, m = Ok a ∧ k a = Ok b.
Proof. destruct m as [e|a]; [done|]. intros H. by exists a. Qed.

Lemma bind_raise_inv {A B} (m : result A) (k : A → result B) e :
  (m ≫= k) = inl e → m = inl e ∨ ∃ a, m = Ok a ∧ k a = inl e.
Proof.
  destruct m as [e'|a]; simpl.
  - intros [= ->]. by left.
  - intros H. right. by exists a.
Qed.

(** ** Errors of feature engineering *)

Lemma get_raises (df : gmap string column) name e :
  get df name = inl e → e = Raise KeyError name.
Proof. unfold get. destruct (df !! name); [done|]. by intros [= <-]. Qed.

Lemma get_num_raises (df : gmap string column) name e :
  get_num df name = inl e →
  e = Raise KeyError name ∨ e = Raise TypeError name.
Proof.
  unfold get_num. intros H.
  apply bind_raise_inv in H as [H|(c & _ & H)].
  - left. by apply get_raises in H.
  - right. destruct c; [done|]. by injection H as <-.
Qed.

Lemma astype_int_raises s e :
  astype_int s = inl e →
  e = Raise ValueError
        "Cannot convert non-finite values (NA or inf) to integer".
Proof.
  unfold astype_int. induction s as [|x s IH]; simpl; [done|].
  intros H. apply bind_raise_inv in H as [H|(v & _ & H)].
  - destruct x; [done|]. by injection H as <-.
  - apply bind_raise_inv in H as [H|(v' & _ & H)]; [by apply IH|done].
Qed.

Lemma astype_int_ok s t :
  astype_int s = Ok t → Forall is_Some s ∧ length t = length s.
Proof.
  unfold astype_int. revert t. induction s as [|x s IH]; simpl; intros t H.
  - injection H as <-. by split.
  - apply bind_inv in H as (v & Hv & H).
    apply bind_inv in H as (t' & Ht' & H).
    injection H as <-. destruct x; [|done].
    destruct (IH _ Ht') as [? ?]. split; [by constructor|simpl; lia].
Qed.

Lemma fillna_mode_raises c e :
  fillna_mode c = inl e → e = Raise KeyError "0".
Proof.
  unfold fillna_mode, mode0. intros H.
  apply bind_raise_inv in H as [H|(k & _ & H)].
  - destruct (least _); [done|]. by injection H as <-.
  - by destruct c, k.
Qed.

Lemma for_each_raises {A S} (f : S → A → result S) (P : exn → Prop) l s e :
  (∀ s a e, f s a = inl e → P e) →
  for_each f l s = inl e → P e.
Proof.
  intros Hf. revert s. induction l as [|a l IH]; simpl; intros s H; [done|].
  apply bind_raise_inv in H as [H|(s' & _ & H)]; eauto.
Qed.

Lemma select_raises (df : gmap string column) columns e :
  select df columns = inl e → exn_type e = KeyError.
Proof.
  unfold select. induction columns as [|c cs IH]; simpl; [done|].
  intros H. apply bind_raise_inv in H as [H|(v & _ & H)].
  - apply bind_raise_inv in H as [H|(? & _ & H)]; [|done].
    apply get_raises in H as ->. done.
  - apply bind_raise_inv in H as [H|(? & _ & H)]; [by apply IH|done].
Qed.

Lemma loc_assign_raises (df : gmap string column) mask col v e :
  loc_assign df mask col v = inl e → e = Raise TypeError col.
Proof.
  unfold loc_assign. destruct (df !! col) as [[?|?]|]; try done.
  by intros [= <-].
Qed.

Ltac feature_error_step H :=
  first
    [ apply get_raises in H as ->; by left
    | apply loc_assign_raises in H as ->; by right; left
    | apply get_num_raises in H as [-> | ->]; [by left | by right; left]
    | apply astype_int_raises in H as ->; by right; right
    | apply fillna_mode_raises in H as ->; by left ].

Ltac feature_error_chain H :=
  repeat (apply bind_raise_inv in H as [H|(? & _ & H)];
          [feature_error_step H|]; cbv beta zeta in H);
  try done.

Lemma impute_numerical_raises df col e :
  impute_numerical df col = inl e → feature_error e.
Proof.
  unfold impute_numerical, feature_error. intros H.
  repeat case_bool_decide; feature_error_chain H.
Qed.

Lemma impute_categorical_raises df col e :
  impute_categorical df col = inl e → feature_error e.
Proof.
  unfold impute_categorical, feature_error. intros H.
  feature_error_chain H.
Qed.

Lemma engineer_raises `{L : Library} df e :
  engineer df = inl e → feature_error e.
Proof.
  unfold engineer, feature_error. intros H. feature_error_chain H.
Qed.

(** Whatever the frame, [prepare_features] raises nothing but a
    [KeyError], a [TypeError] or the [ValueError] of a NaN flag. *)
Lemma prepare_features_raises `{L : Library} df e :
  prepare_features df = inl e → feature_error e.
Proof.
  unfold prepare_features. intros H.
  apply bind_raise_inv in H as [H|(? & _ & H)]; [by eapply engineer_raises|].
  apply bind_raise_inv in H as [H|(? & _ & H)].
  { eapply for_each_raises; [|exact H]. apply impute_numerical_raises. }
  apply bind_raise_inv in H as [H|(? & _ & H)].
  { eapply for_each_raises; [|exact H]. apply impute_categorical_raises. }
  apply bind_raise_inv in H as [H|(? & _ & H)]; [|done].
  left. by eapply select_raises.
Qed.

(** ** Frames: reading and assigning columns *)

Lemma get_lookup (df : gmap string column) name c :
  get df name = Ok c ↔ df !! name = Some c.
Proof.
  unfold get. destruct (df !! name); split; intros H; try done.
  - by injection H as ->.
  - by injection H as ->.
Qed.

Lemma get_num_lookup (df : gmap string column) name l :
  get_num df name = Ok l ↔ df !! name = Some (NumCol l).
Proof.
  unfold get_num, get.
  destruct (df !! name) as [[l'|l']|]; simpl; split; intros H; try done.
  - by injection H as ->.
  - by injection H as ->.
Qed.

Lemma get_insert (df : gmap string column) n m c :
  get (<[n := c]> df) m = if bool_decide (n = m) then Ok c else get df m.
Proof.
  unfold get. case_bool_decide as H.
  - subst. by rewrite lookup_insert_eq.
  - by rewrite lookup_insert_ne.
Qed.

Lemma get_num_insert (df : gmap string column) n m c :
  get_num (<[n := c]> df) m =
  if bool_decide (n = m) then
    match c with NumCol l => Ok l | StrCol _ => raise TypeError m end
  else get_num df m.
Proof. unfold get_num. rewrite get_insert. by case_bool_decide. Qed.

Lemma get_ext (df1 df2 : gmap string column) name :
  df1 !! name = df2 !! name → get df1 name = get df2 name.
Proof. unfold get. by intros ->. Qed.

Lemma get_num_ext (df1 df2 : gmap string column) name :
  df1 !! name = df2 !! name → get_num df1 name = get_num df2 name.
Proof. unfold get_num. by intros ->%get_ext. Qed.

(** ** The imputation loops *)

(** One round of the numerical loop assigns the column it is given and
    no other. *)
Lemma loc_assign_frame (df : gmap string column) mask col v df' :
  loc_assign df mask col v = Ok df' → ∃ l, df' = <[col := NumCol l]> df.
Proof.
  unfold loc_assign. destruct (df !! col) as [[?|?]|]; try done;
    intros [= <-]; by eexists.
Qed.

Lemma loc_assign_ext (df1 df2 : gmap string column) mask col v :
  df1 !! col = df2 !! col →
  (d ← loc_assign df1 mask col v; Ok (d !! col))
  = (d ← loc_assign df2 mask col v; Ok (d !! col)).
Proof.
  unfold loc_assign. intros <-.
  destruct (df1 !! col) as [[?|?]|]; simpl; by rewrite ?lookup_insert_eq.
Qed.

Lemma impute_numerical_frame df col df' :
  impute_numerical df col = Ok df' → ∃ l, df' = <[col := NumCol l]> df.
Proof.
  unfold impute_numerical. intros H.
  repeat case_bool_decide;
    repeat (apply bind_inv in H as (? & ? & H); cbv beta zeta in H);
    repeat match goal with
      | Hb : loc_assign _ _ _ _ = Ok _ |- _ =>
          apply loc_assign_frame in Hb as (? & ->)
      end;
    injection H as <-; eexists; by rewrite ?insert_insert_eq.
Qed.

Lemma impute_numerical_other df col df' c :
  impute_numerical df col = Ok df' → c ≠ col → df' !! c = df !! c.
Proof.
  intros (l & ->)%impute_numerical_frame Hc. by rewrite lookup_insert_ne.
Qed.

(** What a round assigns depends on three columns of the frame: the
    column itself, [irrigation_type] and [state]. *)
Lemma impute_numerical_reads df1 df2 col :
  df1 !! col = df2 !! col →
  df1 !! "irrigation_type"%string = df2 !! "irrigation_type"%string →
  df1 !! "state"%string = df2 !! "state"%string →
  (d ← impute_numerical df1 col; Ok (d !! col))
  = (d ← impute_numerical df2 col; Ok (d !! col)).
Proof.
  intros Hcol Hirr Hst. unfold impute_numerical.
  repeat case_bool_decide;
    rewrite ?(get_ext df1 df2 "irrigation_type") by done;
    rewrite ?(get_ext df1 df2 "state") by done;
    rewrite ?(get_num_ext df1 df2 col) by done;
    unfold loc_assign; rewrite ?Hcol;
    repeat match goal with
      | |- context [get ?d ?k] => destruct (get d k); simpl; [done|]
      | |- context [get_num df2 ?k] => destruct (get_num df2 k); simpl; [done|]
      end;
    try (destruct (df2 !! col) as [[?|?]|]; simpl; [|done|]);
    rewrite ?get_num_insert, ?bool_decide_eq_true_2 by done; simpl;
    by rewrite ?lookup_insert_eq.
Qed.

Lemma for_each_impute_numerical_other cols df df' c :
  for_each impute_numerical cols df = Ok df' → c ∉ cols →
  df' !! c = df !! c.
Proof.
  revert df. induction cols as [|a cols IH]; simpl; intros df H Hc.
  - by injection H as <-.
  - apply bind_inv in H as (df1 & H1 & H).
    apply not_elem_of_cons in Hc as [Hca Hc].
    rewrite (IH _ H Hc). by eapply impute_numerical_other.
Qed.

(** The loop gives every column the value one round gives it on the
    frame the loop started from: the rounds do not feed one another. *)
Lemma for_each_impute_numerical_at cols df df' col :
  NoDup cols → "irrigation_type"%string ∉ cols → "state"%string ∉ cols →
  for_each impute_numerical cols df = Ok df' → col ∈ cols →
  (d ← impute_numerical df col; Ok (d !! col)) = Ok (df' !! col).
Proof.
  revert df. induction cols as [|a cols IH]; intros df Hnd Hirr Hst H Hcol.
  { by apply elem_of_nil in Hcol. }
  simpl in H. apply bind_inv in H as (df1 & H1 & H).
  apply NoDup_cons in Hnd as [Ha Hnd].
  apply not_elem_of_cons in Hirr as [Hirr1 Hirr].
  apply not_elem_of_cons in Hst as [Hst1 Hst].
  apply elem_of_cons in Hcol as [->|Hcol].
  - rewrite H1. simpl. f_equal. symmetry.
    by eapply for_each_impute_numerical_other.
  - rewrite <- (IH df1) by done.
    assert (col ≠ a) by (intros ->; done).
    apply impute_numerical_reads; symmetry;
      by eapply impute_numerical_other.
Qed.

(** The loop returns as soon as every round returns on the frame the
    loop started from. *)
Lemma for_each_impute_numerical_ok cols df :
  NoDup cols → "irrigation_type"%string ∉ cols → "state"%string ∉ cols →
  (∀ col, col ∈ cols → is_ok (impute_numerical df col) = true) →
  is_ok (for_each impute_numerical cols df) = true.
Proof.
  revert df. induction cols as [|a cols IH]; intros df Hnd Hirr Hst Hok;
    [done|].
  simpl. apply NoDup_cons in Hnd as [Ha Hnd].
  apply not_elem_of_cons in Hirr as [Hirr1 Hirr].
  apply not_elem_of_cons in Hst as [Hst1 Hst].
  destruct (impute_numerical df a) as [e|df1] eqn:H1.
  { specialize (Hok a). rewrite H1 in Hok. apply Hok. by left. }
  simpl. apply IH; try done.
  intros col Hcol.
  assert (col ≠ a) by (intros ->; done).
  pose proof (impute_numerical_reads df1 df col) as Hr.
  specialize (Hok col (proj2 (elem_of_cons _ _ _) (or_intror Hcol))).
  destruct (impute_numerical df col); [done|].
  destruct (impute_numerical df1 col); [|done].
  exfalso. enough (inl e = Ok (g !! col)) by done.
  apply Hr; by eapply impute_numerical_other.
Qed.

(** ** C10: the transform depends on the columns it reads and on nothing
    else *)

Lemma agree_insert S df1 df2 n c :
  agree S df1 df2 → agree (n :: S) (<[n := c]> df1) (<[n := c]> df2).
Proof.
  intros H k Hk. destruct (decide (n = k)) as [->|Hn].
  - by rewrite !lookup_insert_eq.
  - rewrite !lookup_insert_ne by done. apply H.
    apply elem_of_cons in Hk as [->|Hk]; done.
Qed.

Lemma agree_get S df1 df2 k :
  agree S df1 df2 → k ∈ S → get df1 k = get df2 k.
Proof. intros H Hk. by apply get_ext, H. Qed.

Lemma agree_get_num S df1 df2 k :
  agree S df1 df2 → k ∈ S → get_num df1 k = get_num df2 k.
Proof. intros H Hk. by apply get_num_ext, H. Qed.


Lemma agree_results_bind {A} S (m : result A) k1 k2 :
  (∀ a, agree_results S (k1 a) (k2 a)) →
  agree_results S (m ≫= k1) (m ≫= k2).
Proof. intros H. destruct m; simpl; [done|apply H]. Qed.

Lemma agree_results_bind2 {A} S (m1 m2 : result A) k1 k2 :
  m1 = m2 →
  (∀ a, agree_results S (k1 a) (k2 a)) →
  agree_results S (m1 ≫= k1) (m2 ≫= k2).
Proof. intros <-. apply agree_results_bind. Qed.

Ltac agree_frames Hag := repeat apply agree_insert; exact Hag.

Ltac lockstep Hag :=
  lazymatch goal with
  | |- agree_results _ (mbind _ (get _ _)) (mbind _ (get _ _)) =>
      apply agree_results_bind2;
      [eapply agree_get; [agree_frames Hag|compute_done]
      |intros ?; cbv beta]
  | |- agree_results _ (mbind _ (get_num _ _)) (mbind _ (get_num _ _)) =>
      apply agree_results_bind2;
      [eapply agree_get_num; [agree_frames Hag|compute_done]
      |intros ?; cbv beta]
  | |- agree_results _ (mbind _ (astype_int _)) (mbind _ (astype_int _)) =>
      apply agree_results_bind; intros ?; cbv beta
  | |- agree_results _ (Ok _) (Ok _) =>
      change (agree_results ?S (Ok ?a) (Ok ?b)) with (agree S a b);
      agree_frames Hag
  end.

Section Agreement.

Context `{L : Library}.

Lemma engineer_agree df1 df2 :
agree raw_columns df1 df2 →
agree_results (rev engineered_columns ++ raw_columns)
  (engineer df1) (engineer df2).
Proof.
intros Hag. unfold engineer.
repeat lockstep Hag.
Qed.

Lemma impute_numerical_agree S df1 df2 col :
agree S df1 df2 →
col ∈ S → "irrigation_type"%string ∈ S → "state"%string ∈ S →
agree_results S (impute_numerical df1 col) (impute_numerical df2 col).
Proof.
intros Hag Hcol Hirr Hst.
pose proof (impute_numerical_reads df1 df2 col
              (Hag _ Hcol) (Hag _ Hirr) (Hag _ Hst)) as Hr.
destruct (impute_numerical df1 col) as [e1|d1] eqn:H1;
  destruct (impute_numerical df2 col) as [e2|d2] eqn:H2;
  simpl in *; try done.
- by injection Hr as ->.
- injection Hr as Hr.
  apply impute_numerical_frame in H1 as (l1 & ->).
  apply impute_numerical_frame in H2 as (l2 & ->).
  intros k Hk. destruct (decide (k = col)) as [->|Hne]; [done|].
  rewrite !lookup_insert_ne by done. by apply Hag.
Qed.

Lemma impute_categorical_agree S df1 df2 col :
agree S df1 df2 → col ∈ S →
agree_results S (impute_categorical df1 col) (impute_categorical df2 col).
Proof.
intros Hag Hcol. unfold impute_categorical.
rewrite (agree_get S df1 df2 col) by done.
destruct (get df2 col) as [|c]; simpl; [done|].
destruct (fillna_mode c) as [|c']; simpl; [done|].
intros k Hk. destruct (decide (k = col)) as [->|Hne].
- by rewrite !lookup_insert_eq.
- rewrite !lookup_insert_ne by done. by apply Hag.
Qed.

Lemma for_each_agree (f : gmap string column → string → result (gmap string column))
  S cols df1 df2 :
(∀ d1 d2 col, agree S d1 d2 → col ∈ cols →
              agree_results S (f d1 col) (f d2 col)) →
agree S df1 df2 →
agree_results S (for_each f cols df1) (for_each f cols df2).
Proof.
revert df1 df2. induction cols as [|a cols IH]; intros df1 df2 Hf Hag;
  [done|].
simpl. pose proof (Hf df1 df2 a Hag (list_elem_of_here _ _)) as Ha.
destruct (f df1 a) as [e1|d1]; destruct (f df2 a) as [e2|d2];
  simpl in *; try done.
apply IH; [|done]. intros ? ? col ? Hcol. apply Hf; [done|].
by right.
Qed.

Lemma select_agree S cols df1 df2 :
agree S df1 df2 → cols ⊆ S → select df1 cols = select df2 cols.
Proof.
intros Hag. unfold select.
induction cols as [|c cols IH]; intros Hsub; [done|]. simpl.
rewrite (agree_get S df1 df2 c) by (done || apply Hsub; by left).
rewrite IH; [done|]. intros k Hk. apply Hsub. by right.
Qed.

Lemma bind_agree {B} S (r1 r2 : result (gmap string column))
  (k1 k2 : gmap string column → result B) :
agree_results S r1 r2 →
(∀ a b, agree S a b → k1 a = k2 b) →
(r1 ≫= k1) = (r2 ≫= k2).
Proof.
destruct r1, r2; simpl; try done; [by intros ->|]. intros H Hk. by apply Hk.
Qed.

Lemma prepare_features_agree df1 df2 :
agree raw_columns df1 df2 → prepare_features df1 = prepare_features df2.
Proof.
intros Hag. unfold prepare_features.
apply (bind_agree (rev engineered_columns ++ raw_columns));
  [by apply engineer_agree|].
intros d1 d2 He. eapply bind_agree.
{ apply for_each_agree; [|exact He]. intros ? ? col ? Hcol.
  apply impute_numerical_agree; [done| |compute_done|compute_done].
  revert col Hcol. apply Forall_forall. compute_done. }
intros n1 n2 Hn. eapply bind_agree.
{ apply for_each_agree; [|exact Hn]. intros ? ? col ? Hcol.
  apply impute_categorical_agree; [done|].
  revert col Hcol. apply Forall_forall. compute_done. }
intros c1 c2 Hc.
rewrite (select_agree _ feature_columns c1 c2 Hc); [done|].
intros k. revert k. apply Forall_forall. compute_done.
Qed.
End Agreement.

(** C10.  The feature transform is a function of the columns it reads:
    two runs on frames that hold the same 26 raw columns, and so two runs
    on the same frame, end alike, with the same feature matrix or with the
    same exception; no other column, no clock and no random source enters
    the result. *)
Theorem C10_prepare_features_deterministic `{L : Library} df1 df2 :
  agree raw_columns df1 df2 →
  prepare_features df1 = prepare_features df2.
Proof. apply prepare_features_agree. Qed.

Lemma C10_prepare_features_deterministic_witness :
  agree raw_columns (of_record example_record) (of_record stamped_record)
  ∧ prepare_features (L := example_library) (of_record example_record)
    = prepare_features (L := example_library) (of_record stamped_record).
Proof.
  assert (agree raw_columns (of_record example_record)
            (of_record stamped_record)) as H.
  { unfold stamped_record, of_record. rewrite fmap_insert.
    intros k Hk. rewrite lookup_insert_ne; [done|].
    intros <-. revert Hk. compute_done. }
  split; [exact H|].
  exact (C10_prepare_features_deterministic (L := example_library) _ _ H).
Defined.

(** ** C1 and C8: what one row and what a batch make of medians and means *)

Ltac keys_in H :=
  repeat match type of H with
  | context [bool_decide ?P] =>
      let v := eval vm_compute in (bool_decide P) in
      change (bool_decide P) with v in H
  end; cbv iota in H.

Ltac base_get H :=
  repeat (first [rewrite get_num_insert in H | rewrite get_insert in H];
          keys_in H).

Section Spec.
Context `{L : Library}.

Lemma engineer_spec df E :
  engineer df = Ok E →
  (∀ c, c ∉ engineered_columns → E !! c = df !! c)
  ∧ ∃ st rain,
      df !! "state"%string = Some st
      ∧ df !! "actual_rainfall_mm"%string = Some (NumCol rain)
      ∧ E !! "rainfall_deviation_from_state"%string
        = Some (NumCol
                  (div (sub rain (groupby_transform st rain broadcast_mean))
                       (groupby_transform st rain broadcast_mean))).
Proof.
  unfold engineer. intros H.
  repeat (apply bind_inv in H as (? & ? & H)).
  injection H as <-.
  repeat match goal with
  | H : get_num _ ?k = Ok _ |- _ =>
      lazymatch k with
      | "actual_rainfall_mm"%string => fail
      | _ => clear H
      end
  | H : get _ ?k = Ok _ |- _ =>
      lazymatch k with
      | "state"%string => fail
      | _ => clear H
      end
  | H : astype_int _ = _ |- _ => clear H
  end.
  repeat match goal with
  | H : get _ _ = Ok _ |- _ => base_get H; apply get_lookup in H
  | H : get_num _ _ = Ok _ |- _ => base_get H; apply get_num_lookup in H
  end.
  split.
  - intros c Hc. unfold engineered_columns in Hc.
    rewrite !not_elem_of_cons in Hc. destruct_and!.
    by rewrite !lookup_insert_ne by done.
  - eexists _, _. split; [eassumption|]. split; [eassumption|].
    rewrite lookup_insert_eq.
    match goal with
    | H1 : df !! "actual_rainfall_mm"%string = Some (NumCol ?a),
      H2 : df !! "actual_rainfall_mm"%string = Some (NumCol ?b) |- _ =>
        rewrite H1 in H2; injection H2 as <-
    end.
    reflexivity.
Qed.

(** The numerical loop on the frame of [engineer]. *)
Lemma numerical_features_NoDup : NoDup numerical_features.
Proof. compute_done. Qed.

Lemma impute_group_median df df' col :
  col ∈ ["ndvi_score"; "soil_moisture_percent"]%string →
  for_each impute_numerical numerical_features df = Ok df' →
  ∃ st c,
    df !! "state"%string = Some st
    ∧ df !! col = Some (NumCol c)
    ∧ df' !! col
      = Some (NumCol (groupby_transform st c (λ x, fillna x (median x)))).
Proof.
  intros Hcol H.
  assert (col ∈ numerical_features) as Hin.
  { revert Hcol. rewrite !elem_of_cons, elem_of_nil.
    intros [->|[->|[]]]; compute_done. }
  pose proof (for_each_impute_numerical_at numerical_features df df' col
                numerical_features_NoDup ltac:(compute_done)
                ltac:(compute_done) H Hin) as Hat.
  unfold impute_numerical in Hat.
  rewrite (bool_decide_eq_true_2 (col ∈ _)) in Hat by done.
  rewrite (bool_decide_eq_false_2 (col = "borewell_depth_ft"%string)) in Hat
    by (intros ->; revert Hcol; compute_done).
  rewrite (bool_decide_eq_false_2 (col = "borewell_count"%string)) in Hat
    by (intros ->; revert Hcol; compute_done).
  apply bind_inv in Hat as (d & Hd & Hat).
  apply bind_inv in Hd as (st & Hst & Hd).
  apply bind_inv in Hd as (c & Hc & Hd).
  injection Hd as <-. injection Hat as Hat.
  rewrite lookup_insert_eq in Hat.
  apply get_lookup in Hst. apply get_num_lookup in Hc.
  by exists st, c.
Qed.

Lemma impute_median df df' col :
  col ∈ numerical_features →
  col ∉ ["borewell_depth_ft"; "borewell_count"; "ndvi_score";
         "soil_moisture_percent"]%string →
  for_each impute_numerical numerical_features df = Ok df' →
  ∃ c, df !! col = Some (NumCol c)
       ∧ df' !! col = Some (NumCol (fillna c (median c))).
Proof.
  intros Hin Hcol H.
  pose proof (for_each_impute_numerical_at numerical_features df df' col
                numerical_features_NoDup ltac:(compute_done)
                ltac:(compute_done) H Hin) as Hat.
  rewrite !not_elem_of_cons in Hcol. destruct_and!.
  unfold impute_numerical in Hat.
  rewrite (bool_decide_eq_false_2 (col ∈ _)) in Hat
    by (rewrite !not_elem_of_cons; done).
  rewrite (bool_decide_eq_false_2 (col = "borewell_depth_ft"%string)) in Hat
    by done.
  rewrite (bool_decide_eq_false_2 (col = "borewell_count"%string)) in Hat
    by done.
  apply bind_inv in Hat as (d & Hd & Hat).
  apply bind_inv in Hd as (c & Hc & Hd).
  injection Hd as <-. injection Hat as Hat.
  rewrite lookup_insert_eq in Hat. apply get_num_lookup in Hc.
  by exists c.
Qed.

Lemma impute_categorical_other df col df' c :
  impute_categorical df col = Ok df' → c ≠ col → df' !! c = df !! c.
Proof.
  unfold impute_categorical. intros H Hc.
  apply bind_inv in H as (? & _ & H). apply bind_inv in H as (? & _ & H).
  injection H as <-. by rewrite lookup_insert_ne.
Qed.

Lemma for_each_impute_categorical_other cols df df' c :
  for_each impute_categorical cols df = Ok df' → c ∉ cols →
  df' !! c = df !! c.
Proof.
  revert df. induction cols as [|a cols IH]; simpl; intros df H Hc.
  - by injection H as <-.
  - apply bind_inv in H as (df1 & H1 & H).
    apply not_elem_of_cons in Hc as [Hca Hc].
    rewrite (IH _ H Hc). by eapply impute_categorical_other.
Qed.

(** A categorical column that went through the loop had a mode: some
    row of it is not NaN. *)
Lemma for_each_impute_categorical_mode cols df df' col :
  for_each impute_categorical cols df = Ok df' → NoDup cols → col ∈ cols →
  ∃ c k, df !! col = Some c ∧ mode0 c = Ok k.
Proof.
  revert df. induction cols as [|a cols IH]; intros df H Hnd Hcol.
  { by apply elem_of_nil in Hcol. }
  simpl in H. apply bind_inv in H as (df1 & H1 & H).
  apply NoDup_cons in Hnd as [Ha Hnd].
  apply elem_of_cons in Hcol as [->|Hcol].
  - unfold impute_categorical in H1.
    apply bind_inv in H1 as (c & Hc & H1).
    apply bind_inv in H1 as (c' & Hc' & _).
    unfold fillna_mode in Hc'. apply bind_inv in Hc' as (k & Hk & _).
    apply get_lookup in Hc. by exists c, k.
  - destruct (IH df1 H Hnd Hcol) as (c & k & Hc & Hk).
    exists c, k. split; [|done].
    rewrite <- Hc. symmetry. eapply impute_categorical_other; [done|].
    by intros ->.
Qed.

Lemma select_lookup (df : gmap string column) cols X i c :
  select df cols = Ok X → cols !! i = Some c →
  ∃ v, df !! c = Some v ∧ X !! i = Some (c, v).
Proof.
  unfold select. revert X i.
  induction cols as [|a cols IH]; intros X i H Hi; [done|].
  simpl in H. apply bind_inv in H as ([a' v] & Hv & H).
  apply bind_inv in Hv as (v' & Hv' & Hv). injection Hv as <- <-.
  apply bind_inv in H as (X' & HX' & H). injection H as <-.
  destruct i as [|i]; simpl in *.
  - injection Hi as <-. apply get_lookup in Hv'. by exists v'.
  - by apply IH.
Qed.

Lemma prepare_features_inv df X cols cats :
  prepare_features df = Ok (X, cols, cats) →
  ∃ E F G,
    engineer df = Ok E
    ∧ for_each impute_numerical numerical_features E = Ok F
    ∧ for_each impute_categorical categorical_features F = Ok G
    ∧ select G feature_columns = Ok X
    ∧ cols = feature_columns ∧ cats = categorical_features.
Proof.
  unfold prepare_features. intros H.
  apply bind_inv in H as (E & HE & H). apply bind_inv in H as (F & HF & H).
  apply bind_inv in H as (G & HG & H). apply bind_inv in H as (X' & HX & H).
  injection H as <- <- <-. by exists E, F, G.
Qed.

(** The two satellite features of any frame: each row keeps its value,
    and a missing value receives the median of the rows of the same state
    in that frame. *)
Lemma prepare_features_satellite df X cols cats col i :
  prepare_features df = Ok (X, cols, cats) →
  (col, i) ∈ [("ndvi_score", 5%nat); ("soil_moisture_percent", 6%nat)]%string →
  ∃ st c,
    df !! "state"%string = Some st
    ∧ df !! col = Some (NumCol c)
    ∧ X !! i
      = Some (col, NumCol (groupby_transform st c (λ x, fillna x (median x)))).
Proof.
  intros H Hcol.
  apply prepare_features_inv in H as (E & F & G & HE & HF & HG & HX & _).
  apply engineer_spec in HE as [HE _].
  assert (col ∈ ["ndvi_score"; "soil_moisture_percent"]%string
          ∧ feature_columns !! i = Some col) as [Hc Hi].
  { revert Hcol. rewrite !elem_of_cons, elem_of_nil.
    intros [[= -> ->]|[[= -> ->]|[]]]; split; (compute_done || done). }
  assert ((col ∉ engineered_columns) ∧ (col ∉ categorical_features))
    as [Hne Hnc].
  { revert Hc. rewrite !elem_of_cons, elem_of_nil.
    intros [->|[->|[]]]; split; compute_done. }
  destruct (impute_group_median E F col Hc HF) as (st & c & Hst & Hcc & HFc).
  destruct (select_lookup G feature_columns X i col HX Hi) as (v & Hv & HXi).
  exists st, c.
  rewrite HE in Hst by compute_done. rewrite HE in Hcc by done.
  split; [done|]. split; [done|].
  erewrite for_each_impute_categorical_other in Hv by done.
  rewrite HFc in Hv. by injection Hv as <-.
Qed.

(** The regional deviation of any frame, and the fact that a frame that
    went through has a state in one row at least. *)
Lemma prepare_features_deviation df X cols cats :
  prepare_features df = Ok (X, cols, cats) →
  ∃ st rain k,
    df !! "state"%string = Some st
    ∧ mode0 st = Ok k
    ∧ df !! "actual_rainfall_mm"%string = Some (NumCol rain)
    ∧ let m := groupby_transform st rain broadcast_mean in
      let dev := div (sub rain m) m in
      X !! 27%nat
      = Some ("rainfall_deviation_from_state"%string,
              NumCol (fillna dev (median dev))).
Proof.
  intros H.
  apply prepare_features_inv in H as (E & F & G & HE & HF & HG & HX & _).
  apply engineer_spec in HE as [HE (st & rain & Hst & Hrain & Hdev)].
  destruct (impute_median E F "rainfall_deviation_from_state")
    as (c & Hc & HFc); [compute_done|compute_done|done|].
  rewrite Hdev in Hc. injection Hc as <-.
  destruct (select_lookup G feature_columns X 27
              "rainfall_deviation_from_state" HX) as (v & Hv & HXi); [done|].
  destruct (for_each_impute_categorical_mode categorical_features F G "state"
              HG) as (st' & k & Hst' & Hk); [compute_done|compute_done|].
  rewrite (for_each_impute_numerical_other _ _ _ _ HF) in Hst'
    by compute_done.
  rewrite HE in Hst' by compute_done. rewrite Hst in Hst'.
  injection Hst' as <-.
  exists st, rain, k. do 3 (split; [done|]). simpl.
  erewrite for_each_impute_categorical_other in Hv by (done || compute_done).
  rewrite HFc in Hv. by injection Hv as <-.
Qed.

(** *** One-row frames *)

Lemma key_eqb_refl k : key_eqb k k = true.
Proof. destruct k; simpl; [apply String.eqb_refl|apply Qeq_bool_refl]. Qed.

Lemma of_record_lookup (farm_data : gmap string value) name c :
  of_record farm_data !! name = Some c ↔
  ∃ v, farm_data !! name = Some v ∧ c = column_of_value v.
Proof.
  unfold of_record. rewrite lookup_fmap.
  destruct (farm_data !! name) as [v|]; simpl; split.
  - intros [= <-]. by exists v.
  - by intros (v' & [= <-] & ->).
  - done.
  - by intros (? & ? & _).
Qed.

(** A one-row column with a mode holds a value, which is its only key. *)
Lemma mode0_one_row v k :
  mode0 (column_of_value v) = Ok k →
  ∃ k0, keys (column_of_value v) = [Some k0].
Proof. destruct v; simpl; intros H; try done; by eexists. Qed.

(** Over one row with a key, [transform] hands the row the first entry of
    what the function makes of the row alone. *)
Lemma groupby_transform_one_row by_col k0 x f :
  keys by_col = [Some k0] →
  groupby_transform by_col [x] f = [mjoin (f [x] !! 0%nat)].
Proof.
  intros Hk. unfold groupby_transform. rewrite Hk. simpl.
  unfold group_of. simpl.
  rewrite filter_cons_True by (simpl; apply key_eqb_refl). done.
Qed.

Lemma one_row_deviation by_col k0 x :
  keys by_col = [Some k0] → 0 < x →
  let m := groupby_transform by_col [Some x] broadcast_mean in
  let dev := div (sub [Some x] m) m in
  ∃ d, fillna dev (median dev) = [Some d] ∧ d == 0.
Proof.
  intros Hk Hx. simpl.
  rewrite (groupby_transform_one_row _ k0) by done.
  unfold broadcast_mean, mean. simpl.
  set (m := Num.sum [x] / inject_Z (Z.of_nat 1)).
  assert (m == x) as Hm.
  { unfold m, Num.sum. simpl. change (inject_Z 1) with 1. field. }
  unfold Num.div.
  destruct (Qeq_bool m 0) eqn:E.
  { apply Qeq_bool_eq in E. lra. }
  simpl. eexists. split; [reflexivity|].
  rewrite Hm. field. lra.
Qed.

Lemma one_row_group_median by_col k0 x :
  keys by_col = [Some k0] →
  groupby_transform by_col [x] (λ s, fillna s (median s)) = [x].
Proof.
  intros Hk. rewrite (groupby_transform_one_row _ k0) by done.
  by destruct x.
Qed.
End Spec.

Lemma one_row_numeric v c :
  NumCol c = column_of_value v → ∃ x, c = [x].
Proof. destruct v; intros [= ->]; by eexists. Qed.

(** ** Scoring: what a returned report is made of *)

Section Scoring.
Context `{L : Library}.

(** Every report comes out of the same chain: a fitted classifier, the
    features of the one-row frame, the first probability, the first row
    of contributions without its bias and the breakdown of that row. *)
Lemma predict_risk_score_inv self farm_data rep :
  predict_risk_score self farm_data = Ok rep →
  ∃ X cols cats p names contributions bd,
    prepare_features (of_record farm_data) = Ok (X, cols, cats)
    ∧ probability_of self farm_data p
    ∧ shap_of self farm_data names contributions
    ∧ _calculate_breakdown names contributions = Ok bd
    ∧ rep =
      {| farmer_id := default (VStr "Unknown") (farm_data !! "farmer_id");
         risk_score := risk_score_of p;
         risk_category := (categorize (risk_score_of p)).1;
         category_label := (categorize (risk_score_of p)).2;
         claim_probability := Num.round_nd (Num.fmul p 100) 2;
         confidence := "high";
         breakdown := bd;
         top_risk_drivers :=
           (λ fc, (fc.1, Num.round_nd fc.2 3)) <$>
           take 3 (sorted_desc snd
                     (filter (λ fc, 0 < fc.2) (zip names contributions)));
         top_protective_factors :=
           (λ fc, (fc.1, Num.round_nd fc.2 3)) <$>
           take 3 (sorted_desc snd
                     ((λ fc, (fc.1, Qabs fc.2)) <$>
                      filter (λ fc, fc.2 < 0)
                        (zip names contributions))) |}.
Proof.
  unfold predict_risk_score. intros H.
  destruct (calibrated_model self) as [clf|] eqn:Hclf; [|done].
  apply bind_inv in H as ([[X cols] cats] & HX & H).
  apply bind_inv in H as (y_prob & Hy & H).
  apply bind_inv in H as (p & Hp & H).
  destruct (categorize (risk_score_of p)) as [cat lbl] eqn:Hcat.
  apply bind_inv in H as (names & Hn & H).
  apply bind_inv in H as (cats' & Hc & H).
  apply bind_inv in H as (pool & Hpool & H).
  apply bind_inv in H as (m & Hm & H).
  apply bind_inv in H as (shap & Hshap & H).
  apply bind_inv in H as (row & Hrow & H).
  apply bind_inv in H as (bd & Hbd & H).
  destruct (y_prob !! 0%nat) eqn:Hp0; [|done]. injection Hp as ->.
  destruct (feature_names self) eqn:Hnames; [|done]. injection Hn as ->.
  destruct (model self) as [[|m']|] eqn:Hmodel; try done. injection Hm as ->.
  destruct (shap !! 0%nat) eqn:Hrow0; [|done]. injection Hrow as ->.
  destruct (catboost_pool X None (indices_in cats' 0 names))
    as [|pool'] eqn:Hpool'; [done|]. injection Hpool as ->.
  destruct (shap_values m pool) as [|shap'] eqn:Hshap'; [done|].
  injection Hshap as ->. injection H as <-.
  exists X, cols, cats, p, names, (removelast row), bd.
  split; [done|]. split; [by exists clf, X, cols, cats, y_prob|].
  split; [|split; [done|by rewrite Hcat]].
  exists X, cols, cats, m, pool, shap, row.
  do 2 (split; [done|]). split; [|done].
  destruct (categorical_features_of self) as [cs|]; simpl.
  - by injection Hc as ->.
  - destruct names; [|done]. by injection Hc as <-.
Qed.

End Scoring.

Lemma example_report_returned :
  predict_risk_score (L := example_library) example_bundle example_record
  = Ok example_report.
Proof. vm_compute. reflexivity. Qed.

(** ** C2: the risk score *)

(** C2 (as the code has it).  For every report, with [p] the probability
    the fitted classifier gives for the record, the risk score is
    [clip((1 - p) * 100, 0, 100)], the subtraction and the product being
    those of float64, truncated to an integer, which is its floor, and
    lies in [0, 100]; it is not rounded to the nearest integer. *)
Theorem C2_risk_score_truncated `{L : Library} self farm_data rep :
  predict_risk_score self farm_data = Ok rep →
  ∃ p,
    probability_of self farm_data p
    ∧ risk_score rep
      = Qfloor (Num.clip (Num.fmul (Num.fsub 1 p) 100) 0 100)
    ∧ (0 ≤ risk_score rep ≤ 100)%Z.
Proof.
  intros H.
  apply predict_risk_score_inv in H
    as (X & cols & cats & p & names & contributions & bd
        & _ & Hp & _ & _ & ->).
  exists p. split; [done|]. simpl. unfold risk_score_of.
  by apply (int_clip _ 100).
Qed.

Lemma C2_risk_score_truncated_witness :
  predict_risk_score (L := example_library) example_bundle example_record
  = Ok example_report
  ∧ ∃ p,
      probability_of example_bundle example_record p
      ∧ risk_score example_report
        = Qfloor (Num.clip (Num.fmul (Num.fsub 1 p) 100) 0 100)
      ∧ (0 ≤ risk_score example_report ≤ 100)%Z.
Proof.
  split; [vm_compute; reflexivity|].
  apply (C2_risk_score_truncated (L := example_library)
           example_bundle example_record).
  vm_compute. reflexivity.
Defined.

(** C2, the claim as stated, fails: the example classifier gives the
    float64 nearest to 0.004, so that [clip((1 - p) * 100, 0, 100)] is
    the float64 nearest to 99.6; the report carries 99 where rounding
    gives 100. *)
Lemma C2_counterexample :
  probability_of example_bundle example_record (Num.float64 0.004)
  ∧ predict_risk_score (L := example_library) example_bundle example_record
    = Ok example_report
  ∧ risk_score example_report = 99%Z
  ∧ Num.clip (Num.fmul (Num.fsub 1 (Num.float64 0.004)) 100) 0 100
    = Num.float64 99.6
  ∧ Num.round (Num.float64 99.6) = 100%Z.
Proof.
  split.
  { eexists _, _, _, _, _. split; [vm_compute; reflexivity|].
    split; [vm_compute; reflexivity|].
    split; vm_compute; reflexivity. }
  repeat split; vm_compute; reflexivity.
Qed.

(** ** C5: category and label *)

(** C5.  In every report the category and the label follow the score:
    75 and above is [low]; 50 to 74 is [medium]; 25 to 49 is [high] with
    the label "High Risk"; below 25 is [high] with the label
    "Critical Risk".  Category and label are two fields of the report. *)
Theorem C5_category_and_label `{L : Library} self farm_data rep :
  predict_risk_score self farm_data = Ok rep →
  ((75 ≤ risk_score rep)%Z → risk_category rep = "low"%string)
  ∧ ((50 ≤ risk_score rep < 75)%Z → risk_category rep = "medium"%string)
  ∧ ((25 ≤ risk_score rep < 50)%Z →
     risk_category rep = "high"%string
     ∧ category_label rep = "High Risk"%string)
  ∧ ((risk_score rep < 25)%Z →
     risk_category rep = "high"%string
     ∧ category_label rep = "Critical Risk"%string).
Proof.
  intros H.
  apply predict_risk_score_inv in H
    as (X & cols & cats & p & names & contributions & bd
        & _ & _ & _ & _ & ->).
  simpl. generalize (risk_score_of p). intros z. unfold categorize.
  split; [|split; [|split]]; intros Hz;
    repeat (case_match; try lia); simpl; done.
Qed.

Lemma C5_category_and_label_witness :
  predict_risk_score (L := example_library) example_bundle example_record
  = Ok example_report
  ∧ ((75 ≤ risk_score example_report)%Z →
     risk_category example_report = "low"%string)
  ∧ ((50 ≤ risk_score example_report < 75)%Z →
     risk_category example_report = "medium"%string)
  ∧ ((25 ≤ risk_score example_report < 50)%Z →
     risk_category example_report = "high"%string
     ∧ category_label example_report = "High Risk"%string)
  ∧ ((risk_score example_report < 25)%Z →
     risk_category example_report = "high"%string
     ∧ category_label example_report = "Critical Risk"%string).
Proof.
  split; [vm_compute; reflexivity|].
  apply (C5_category_and_label (L := example_library)
           example_bundle example_record).
  vm_compute. reflexivity.
Defined.

(** ** C4: the breakdown *)

Lemma float64_zero (x : Q) : x == 0 → Num.float64 x = 0.
Proof.
  intros H. unfold Num.float64.
  by rewrite (proj2 (Qeq_bool_iff x 0) H).
Qed.

Lemma fadd_zero (x y : Q) : x == 0 → y == 0 → Num.fadd x y = 0.
Proof. intros Hx Hy. apply float64_zero. rewrite Hx, Hy. reflexivity. Qed.

(** The integer kept from a clipped bucket value. *)
Lemma bucket_value (x : Q) :
  Num.int (Num.clip x 0 25) = Qfloor (Num.clip x 0 25)
  ∧ (0 ≤ Num.int (Num.clip x 0 25) ≤ 25)%Z.
Proof. by apply (int_clip x 25). Qed.

(** The four values of a breakdown: bounds, the formula of each bucket
    and the midpoint when nothing contributes. *)
Lemma _calculate_breakdown_spec names contributions bd :
  _calculate_breakdown names contributions = Ok bd →
  ∃ w i d f,
    shap_sum weather_features contributions 0 names 0 = Ok w
    ∧ shap_sum infrastructure_features contributions 0 names 0 = Ok i
    ∧ shap_sum diversification_features contributions 0 names 0 = Ok d
    ∧ shap_sum financial_features contributions 0 names 0 = Ok f
    ∧ ((0 ≤ weather_risk bd ≤ 25)%Z ∧ (0 ≤ infrastructure bd ≤ 25)%Z
       ∧ (0 ≤ diversification bd ≤ 25)%Z ∧ (0 ≤ financial_health bd ≤ 25)%Z)
    ∧ (let total_abs :=
         Num.fadd (Num.fadd (Num.fadd (Qabs w) (Qabs i)) (Qabs d))
           (Qabs f) in
       0 < total_abs →
       weather_risk bd
       = Qfloor (Num.clip
           (Num.fsub 12.5 (Num.fmul (Num.fdiv w total_abs) 12.5)) 0 25)
       ∧ infrastructure bd
         = Qfloor (Num.clip
             (Num.fadd 12.5 (Num.fmul (Num.fdiv i total_abs) 12.5)) 0 25)
       ∧ diversification bd
         = Qfloor (Num.clip
             (Num.fadd 12.5 (Num.fmul (Num.fdiv d total_abs) 12.5)) 0 25)
       ∧ financial_health bd
         = Qfloor (Num.clip
             (Num.fadd 12.5 (Num.fmul (Num.fdiv f total_abs) 12.5)) 0 25))
    ∧ (w == 0 → i == 0 → d == 0 → f == 0 →
       weather_risk bd = 12%Z ∧ infrastructure bd = 12%Z
       ∧ diversification bd = 12%Z ∧ financial_health bd = 12%Z).
Proof.
  unfold _calculate_breakdown. intros H.
  apply bind_inv in H as (w & Hw & H).
  apply bind_inv in H as (i & Hi & H).
  apply bind_inv in H as (d & Hd & H).
  apply bind_inv in H as (f & Hf & H).
  exists w, i, d, f. do 4 (split; [done|]).
  cbv zeta in *.
  set (t := Num.fadd (Num.fadd (Num.fadd (Qabs w) (Qabs i)) (Qabs d))
              (Qabs f)) in *.
  destruct (Qle_bool t 0) eqn:Ht; simpl in H; injection H as <-; simpl.
  - apply Qle_bool_iff in Ht.
    split; [lia|]. split; [intros Hpos; lra|]. done.
  - apply Qle_bool_false in Ht.
    split.
    { repeat split; apply bucket_value. }
    split.
    { intros _. repeat split; apply bucket_value. }
    intros Ew Ei Ed Ef. exfalso.
    assert (t = 0) as Hz.
    { unfold t. apply fadd_zero; [|by rewrite Ef].
      rewrite fadd_zero; [reflexivity| |by rewrite Ed].
      rewrite fadd_zero; [reflexivity|by rewrite Ew|by rewrite Ei]. }
    rewrite Hz in Ht. by apply Qlt_irrefl in Ht.
Qed.

(** C4.  In every report the four breakdown values are integers between 0
    and 25.  With [w], [i], [d], [f] the summed contributions of the
    weather, infrastructure, diversification and financial features of
    the record and [total_abs] the sum of their absolute values, all in
    float64 arithmetic: when [total_abs] is positive, each of
    infrastructure, diversification and financial_health is
    [12.5 + share * 12.5] and weather_risk is [12.5 - share * 12.5] (the
    sign inverted), clipped to [0, 25] and truncated to an integer; when
    all four sums are zero, every value is 12. *)
Theorem C4_breakdown `{L : Library} self farm_data rep :
  predict_risk_score self farm_data = Ok rep →
  ∃ names contributions w i d f,
    shap_of self farm_data names contributions
    ∧ shap_sum weather_features contributions 0 names 0 = Ok w
    ∧ shap_sum infrastructure_features contributions 0 names 0 = Ok i
    ∧ shap_sum diversification_features contributions 0 names 0 = Ok d
    ∧ shap_sum financial_features contributions 0 names 0 = Ok f
    ∧ ((0 ≤ weather_risk (breakdown rep) ≤ 25)%Z
       ∧ (0 ≤ infrastructure (breakdown rep) ≤ 25)%Z
       ∧ (0 ≤ diversification (breakdown rep) ≤ 25)%Z
       ∧ (0 ≤ financial_health (breakdown rep) ≤ 25)%Z)
    ∧ (let total_abs :=
         Num.fadd (Num.fadd (Num.fadd (Qabs w) (Qabs i)) (Qabs d))
           (Qabs f) in
       0 < total_abs →
       weather_risk (breakdown rep)
       = Qfloor (Num.clip
           (Num.fsub 12.5 (Num.fmul (Num.fdiv w total_abs) 12.5)) 0 25)
       ∧ infrastructure (breakdown rep)
         = Qfloor (Num.clip
             (Num.fadd 12.5 (Num.fmul (Num.fdiv i total_abs) 12.5)) 0 25)
       ∧ diversification (breakdown rep)
         = Qfloor (Num.clip
             (Num.fadd 12.5 (Num.fmul (Num.fdiv d total_abs) 12.5)) 0 25)
       ∧ financial_health (breakdown rep)
         = Qfloor (Num.clip
             (Num.fadd 12.5 (Num.fmul (Num.fdiv f total_abs) 12.5)) 0 25))
    ∧ (w == 0 → i == 0 → d == 0 → f == 0 →
       weather_risk (breakdown rep) = 12%Z
       ∧ infrastructure (breakdown rep) = 12%Z
       ∧ diversification (breakdown rep) = 12%Z
       ∧ financial_health (breakdown rep) = 12%Z).
Proof.
  intros H.
  apply predict_risk_score_inv in H
    as (X & cols & cats & p & names & contributions & bd
        & _ & _ & Hshap & Hbd & ->).
  apply _calculate_breakdown_spec in Hbd as (w & i & d & f & Hbd).
  exists names, contributions, w, i, d, f. by split.
Qed.

Lemma C4_breakdown_witness :
  predict_risk_score (L := example_library) example_bundle example_record
  = Ok example_report
  ∧ ∃ names contributions w i d f,
    shap_of example_bundle example_record names contributions
    ∧ shap_sum weather_features contributions 0 names 0 = Ok w
    ∧ shap_sum infrastructure_features contributions 0 names 0 = Ok i
    ∧ shap_sum diversification_features contributions 0 names 0 = Ok d
    ∧ shap_sum financial_features contributions 0 names 0 = Ok f
    ∧ ((0 ≤ weather_risk (breakdown example_report) ≤ 25)%Z
       ∧ (0 ≤ infrastructure (breakdown example_report) ≤ 25)%Z
       ∧ (0 ≤ diversification (breakdown example_report) ≤ 25)%Z
       ∧ (0 ≤ financial_health (breakdown example_report) ≤ 25)%Z)
    ∧ (let total_abs :=
         Num.fadd (Num.fadd (Num.fadd (Qabs w) (Qabs i)) (Qabs d))
           (Qabs f) in
       0 < total_abs →
       weather_risk (breakdown example_report)
       = Qfloor (Num.clip
           (Num.fsub 12.5 (Num.fmul (Num.fdiv w total_abs) 12.5)) 0 25)
       ∧ infrastructure (breakdown example_report)
         = Qfloor (Num.clip
             (Num.fadd 12.5 (Num.fmul (Num.fdiv i total_abs) 12.5)) 0 25)
       ∧ diversification (breakdown example_report)
         = Qfloor (Num.clip
             (Num.fadd 12.5 (Num.fmul (Num.fdiv d total_abs) 12.5)) 0 25)
       ∧ financial_health (breakdown example_report)
         = Qfloor (Num.clip
             (Num.fadd 12.5 (Num.fmul (Num.fdiv f total_abs) 12.5)) 0 25))
    ∧ (w == 0 → i == 0 → d == 0 → f == 0 →
       weather_risk (breakdown example_report) = 12%Z
       ∧ infrastructure (breakdown example_report) = 12%Z
       ∧ diversification (breakdown example_report) = 12%Z
       ∧ financial_health (breakdown example_report) = 12%Z).
Proof.
  split; [vm_compute; reflexivity|].
  apply (C4_breakdown (L := example_library) example_bundle example_record).
  vm_compute. reflexivity.
Defined.

(** ** C9: the stable descending sort and the top factors *)

Section Sorted_desc.
Context {A : Type} (key : A → Q).

Lemma insert_desc_perm x l : insert_desc key x l ≡ₚ x :: l.
Proof.
  induction l as [|y l IH]; simpl; [done|].
  destruct (Qle_bool (key y) (key x)); [done|].
  rewrite IH. apply Permutation_swap.
Qed.

Lemma sorted_desc_perm l : sorted_desc key l ≡ₚ l.
Proof.
  induction l as [|x l IH]; simpl; [done|].
  rewrite insert_desc_perm. by f_equiv.
Qed.

Lemma insert_desc_sorted x l :
  StronglySorted (desc key) l →
  StronglySorted (desc key) (insert_desc key x l).
Proof.
  induction l as [|y l IH]; simpl; intros Hs.
  - repeat constructor.
  - apply StronglySorted_cons in Hs as [Hy Hl].
    destruct (Qle_bool (key y) (key x)) eqn:E.
    + apply Qle_bool_iff in E.
      apply StronglySorted_cons. split.
      * constructor; [done|].
        eapply Forall_impl; [exact Hy|].
        intros z Hz. unfold desc in *. by eapply Qle_trans.
      * apply StronglySorted_cons. done.
    + apply Qle_bool_false in E.
      apply StronglySorted_cons. split; [|by apply IH].
      rewrite insert_desc_perm. constructor; [|done].
      unfold desc. by apply Qlt_le_weak.
Qed.

Lemma sorted_desc_sorted l : StronglySorted (desc key) (sorted_desc key l).
Proof.
  induction l as [|x l IH]; simpl; [constructor|].
  by apply insert_desc_sorted.
Qed.

(** Stability: the elements of any one key come out in input order. *)
Lemma insert_desc_stable k x l :
  filter (λ a, key a == k) (insert_desc key x l)
  = filter (λ a, key a == k) (x :: l).
Proof.
  induction l as [|y l IH]; simpl; [done|].
  destruct (Qle_bool (key y) (key x)) eqn:E; [done|].
  apply Qle_bool_false in E.
  rewrite filter_cons, IH, !filter_cons.
  destruct (decide (key y == k)) as [Hy|Hy];
    destruct (decide (key x == k)) as [Hx|Hx]; try done.
  exfalso. rewrite Hy, Hx in E. by apply Qlt_irrefl in E.
Qed.

Lemma sorted_desc_stable k l :
  filter (λ a, key a == k) (sorted_desc key l)
  = filter (λ a, key a == k) l.
Proof.
  induction l as [|x l IH]; simpl; [done|].
  rewrite insert_desc_stable, !filter_cons, IH. done.
Qed.

Lemma sorted_desc_length l : length (sorted_desc key l) = length l.
Proof. by rewrite sorted_desc_perm. Qed.

(** What is cut off by [[:n]] is no larger than anything kept. *)
Lemma take_sorted_desc_dominates n l a b :
  a ∈ take n (sorted_desc key l) → b ∈ drop n (sorted_desc key l) →
  key b <= key a.
Proof.
  intros Ha Hb.
  pose proof (sorted_desc_sorted l) as Hs.
  rewrite <- (take_drop n (sorted_desc key l)) in Hs.
  by apply (StronglySorted_app_1_elem_of _ _ _ a b) in Hs.
Qed.

End Sorted_desc.

(** C9.  In every report, with the contributions of the features of the
    record (the first row of the SHAP values of the record, without the
    bias): the risk drivers are the first three of the positive
    contributions put in descending order, each with its feature name and
    its signed value; the protective factors are the first three of the
    negative contributions put in descending order of absolute value, each
    with its feature name and its absolute value; both orders are stable,
    so equal values stay in the order of the features; fewer than three
    are reported when fewer exist; the reported values are rounded to
    three decimals the way numpy rounds. *)
Theorem C9_top_factors `{L : Library} self farm_data rep :
  predict_risk_score self farm_data = Ok rep →
  ∃ names contributions drivers protective,
    shap_of self farm_data names contributions
    ∧ drivers ≡ₚ risk_increasing names contributions
    ∧ StronglySorted (desc snd) drivers
    ∧ (∀ k, filter (λ fc, fc.2 == k) drivers
            = filter (λ fc, fc.2 == k) (risk_increasing names contributions))
    ∧ top_risk_drivers rep
      = (λ fc, (fc.1, Num.round_nd fc.2 3)) <$> take 3 drivers
    ∧ protective ≡ₚ risk_decreasing names contributions
    ∧ StronglySorted (desc snd) protective
    ∧ (∀ k, filter (λ fc, fc.2 == k) protective
            = filter (λ fc, fc.2 == k) (risk_decreasing names contributions))
    ∧ top_protective_factors rep
      = (λ fc, (fc.1, Num.round_nd fc.2 3)) <$> take 3 protective
    ∧ length (top_risk_drivers rep)
      = Nat.min 3 (length (risk_increasing names contributions))
    ∧ length (top_protective_factors rep)
      = Nat.min 3 (length (risk_decreasing names contributions)).
Proof.
  intros H.
  apply predict_risk_score_inv in H
    as (X & cols & cats & p & names & contributions & bd
        & _ & _ & Hshap & _ & ->).
  exists names, contributions,
    (sorted_desc snd (risk_increasing names contributions)),
    (sorted_desc snd (risk_decreasing names contributions)).
  simpl. split; [done|].
  split; [apply sorted_desc_perm|]. split; [apply sorted_desc_sorted|].
  split; [intros k; apply (sorted_desc_stable snd)|]. split; [done|].
  split; [apply sorted_desc_perm|]. split; [apply sorted_desc_sorted|].
  split; [intros k; apply (sorted_desc_stable snd)|]. split; [done|].
  rewrite !length_fmap, !length_take, !sorted_desc_length. done.
Qed.

Lemma C9_top_factors_witness :
  predict_risk_score (L := example_library) example_bundle example_record
  = Ok example_report
  ∧ ∃ names contributions drivers protective,
    shap_of example_bundle example_record names contributions
    ∧ drivers ≡ₚ risk_increasing names contributions
    ∧ StronglySorted (desc snd) drivers
    ∧ (∀ k, filter (λ fc, fc.2 == k) drivers
            = filter (λ fc, fc.2 == k) (risk_increasing names contributions))
    ∧ top_risk_drivers example_report
      = (λ fc, (fc.1, Num.round_nd fc.2 3)) <$> take 3 drivers
    ∧ protective ≡ₚ risk_decreasing names contributions
    ∧ StronglySorted (desc snd) protective
    ∧ (∀ k, filter (λ fc, fc.2 == k) protective
            = filter (λ fc, fc.2 == k) (risk_decreasing names contributions))
    ∧ top_protective_factors example_report
      = (λ fc, (fc.1, Num.round_nd fc.2 3)) <$> take 3 protective
    ∧ length (top_risk_drivers example_report)
      = Nat.min 3 (length (risk_increasing names contributions))
    ∧ length (top_protective_factors example_report)
      = Nat.min 3 (length (risk_decreasing names contributions)).
Proof.
  split; [vm_compute; reflexivity|].
  apply (C9_top_factors (L := example_library) example_bundle example_record).
  vm_compute. reflexivity.
Defined.

(** ** Training *)

Section Training.
Context `{L : Library}.

Ltac py_unfold :=
  unfold mbind, py_mbind, py_bind, py_lift, py_update, py_self, py_ret,
    mret, py_mret, Ok in *.

Ltac attributes :=
  cbn [model calibrated_model feature_names categorical_features_of
       numerical_features_of metrics feature_importance
       set_model set_calibrated_model set_features set_metrics
       set_feature_importance catboost Ok raise] in *.

Lemma plot_needs_a_feature (importance : list (string * Q)) :
  take 15 (sorted_desc snd importance) = [] ↔ importance = [].
Proof.
  split; [|by intros ->].
  intros H. apply (f_equal length) in H.
  rewrite length_take, sorted_desc_length in H.
  destruct importance; [done|]. simpl in H. lia.
Qed.

(** The run of [train] when every call it does not guard returns. *)
Lemma train_run df target self names cats m X_test y_test auc brier
    importance :
  train_calls_return df target names cats m X_test y_test auc brier
    importance →
  ∃ mt,
    train df target self =
      (Ok mt,
       {| model := Some (Fitted m);
          calibrated_model := Some (try_calibrate m X_test y_test);
          feature_names := Some names;
          categorical_features_of := Some cats;
          numerical_features_of := Some (filter (λ f, f ∉ cats) names);
          metrics := mt;
          feature_importance := zip names importance |})
    ∧ dom mt = metric_names
    ∧ mt !! "auc"%string = Some (Some auc)
    ∧ mt !! "brier_score"%string = Some (Some brier).
Proof.
  intros (X & y & mu & X_train & X_temp & y_train & y_temp & X_val & y_val
          & train_pool & val_pool & test_pool & y_prob & tn & fp & fn & tp
          & Hprep & Hy & Hmu & Hs1 & Hs2 & Hp1 & Hp2 & Hp3 & Hfit & Hprob
          & Hauc & Hbrier & Hcm & Himp & Hne & Hcurve).
  eexists. split.
  - unfold train, _plot_calibration_curve. py_unfold.
    rewrite Hprep; cbv beta iota. rewrite Hy; cbv beta iota.
    rewrite Hmu; cbv beta iota.
    rewrite Hs1; cbv beta iota. rewrite Hs2; cbv beta iota zeta.
    rewrite Hp1, Hp2, Hp3; attributes; cbv beta iota.
    rewrite Hfit; attributes; cbv beta iota.
    rewrite Hprob; cbv beta iota.
    rewrite Hauc, Hbrier, Hcm; cbv beta iota.
    unfold unpack4; cbv beta iota.
    rewrite Himp; attributes; cbv beta iota.
    unfold _plot_feature_importance; py_unfold; attributes.
    destruct (take 15 (sorted_desc snd _)) eqn:Hplot;
      [by apply (proj1 (plot_needs_a_feature _)) in Hplot|].
    rewrite Hcurve. reflexivity.
  - attributes. split; [|done].
    unfold metric_names. rewrite !dom_insert_L, dom_empty_L.
    set_solver.
Qed.

(** A run of [train] that returns went through every one of those
    calls. *)
Lemma train_inv df target self mt self' :
  train df target self = (Ok mt, self') →
  ∃ names cats m X_test y_test auc brier importance,
    train_calls_return df target names cats m X_test y_test auc brier
      importance.
Proof.
  unfold train, _plot_calibration_curve. py_unfold. intros H.
  destruct (prepare_features df) as [?|[[X names] cats]] eqn:Hprep;
    [done|]; cbv beta iota in H.
  destruct (get df target) as [?|y] eqn:Hy; [done|]; cbv beta iota in H.
  destruct (numpy_mean y) as [?|mu] eqn:Hmu; [done|]; cbv beta iota in H.
  destruct (train_test_split X y 0.3)
    as [?|[[X_train X_temp] [y_train y_temp]]] eqn:Hs1;
    [done|]; cbv beta iota in H.
  destruct (train_test_split X_temp y_temp 0.5)
    as [?|[[X_val X_test] [y_val y_test]]] eqn:Hs2;
    [done|]; cbv beta iota zeta in H.
  destruct (catboost_pool X_train _ _) as [?|train_pool] eqn:Hp1;
    [done|]; attributes; cbv beta iota in H.
  destruct (catboost_pool X_val _ _) as [?|val_pool] eqn:Hp2;
    [done|]; attributes; cbv beta iota in H.
  destruct (catboost_pool X_test _ _) as [?|test_pool] eqn:Hp3;
    [done|]; attributes; cbv beta iota in H.
  destruct (catboost_fit train_pool val_pool) as [?|m] eqn:Hfit;
    [done|]; attributes; cbv beta iota in H.
  destruct (predict_proba _ X_test) as [?|y_prob] eqn:Hprob;
    [done|]; cbv beta iota in H.
  destruct (roc_auc_score y_test _) as [?|auc] eqn:Hauc;
    [done|]; cbv beta iota in H.
  destruct (brier_score_loss y_test _) as [?|brier] eqn:Hbrier;
    [done|]; cbv beta iota in H.
  destruct (confusion_matrix y_test _) as [?|cm] eqn:Hcm;
    [done|]; cbv beta iota in H.
  destruct cm as [|tn [|fp [|fn [|tp [|]]]]]; try done.
  unfold unpack4 in H; cbv beta iota in H.
  destruct (get_feature_importance m train_pool) as [?|importance] eqn:Himp;
    [done|]; attributes; cbv beta iota in H.
  unfold _plot_feature_importance in H; py_unfold; attributes.
  destruct (take 15 (sorted_desc snd _)) eqn:Hplot; [done|].
  destruct (calibration_curve y_test y_prob) as [?|[]] eqn:Hcurve; [done|].
  exists names, cats, m, X_test, y_test, auc, brier, importance.
  exists X, y, mu, X_train, X_temp, y_train, y_temp, X_val, y_val,
    train_pool, val_pool, test_pool, y_prob, tn, fp, fn, tp.
  do 14 (split; [done|]). split; [|done].
  intros Hz. rewrite Hz in Hplot. done.
Qed.

End Training.

(** ** C3: the calibration fallback *)

(** C3 (as the code has it).  When the calibration fit raises, the
    exception is caught and [calibrated_model] is the estimator itself.
    [train] then returns its metrics provided every call outside the
    [try] block returns, those after it included; the bundle it leaves
    computes every later report from the raw probability of the
    estimator; the metrics have the six keys they always have, none of
    which records the fallback. *)
Theorem C3_calibration_fallback `{L : Library} df target self
    names cats m X_test y_test auc brier importance e :
  train_calls_return df target names cats m X_test y_test auc brier
    importance →
  calibrator_fit m X_test y_test = inl e →
  ∃ mt self',
    train df target self = (Ok mt, self')
    ∧ model self' = Some (Fitted m)
    ∧ calibrated_model self' = Some (RawModel m)
    ∧ metrics self' = mt
    ∧ dom mt = metric_names
    ∧ ∀ farm_data rep,
        predict_risk_score self' farm_data = Ok rep →
        ∃ X' cols' cats' y_prob p,
          prepare_features (of_record farm_data) = Ok (X', cols', cats')
          ∧ catboost_predict_proba m X' = inr y_prob
          ∧ y_prob !! 0%nat = Some p
          ∧ risk_score rep = risk_score_of p
          ∧ claim_probability rep = Num.round_nd (Num.fmul p 100) 2.
Proof.
  intros Hcalls Hcal.
  assert (try_calibrate m X_test y_test = RawModel m) as Hraw
    by (unfold try_calibrate; by rewrite Hcal).
  destruct (train_run df target self _ _ _ _ _ _ _ _ Hcalls)
    as (mt & Htrain & Hdom & _).
  rewrite Hraw in Htrain.
  eexists mt, _. split; [exact Htrain|]. simpl.
  do 4 (split; [done|]).
  intros farm_data rep Hrep.
  apply predict_risk_score_inv in Hrep
    as (X' & cols' & cats' & p & ? & ? & ?
        & _ & (clf & X'' & cols'' & cats'' & y_prob & Hclf & HX & Hprob & Hp)
        & _ & _ & ->).
  simpl in Hclf. injection Hclf as <-. simpl in Hprob.
  destruct (catboost_predict_proba m X'') as [|y_prob'] eqn:Hraw'; [done|].
  injection Hprob as ->.
  by exists X'', cols'', cats'', y_prob, p.
Qed.

Lemma C3_calibration_fallback_witness :
  ∃ mt (self' : @ProductionAgriRiskModel fallback_library),
    train (L := fallback_library) Toy.dataset "claim_filed" __init__
    = (Ok mt, self')
    ∧ model self' = Some (@Fitted fallback_library tt)
    ∧ calibrated_model self' = Some (@RawModel fallback_library tt)
    ∧ metrics self' = mt
    ∧ dom mt = metric_names
    ∧ ∀ farm_data rep,
        predict_risk_score self' farm_data = Ok rep →
        ∃ X' cols' cats' y_prob p,
          prepare_features (L := fallback_library) (of_record farm_data)
          = Ok (X', cols', cats')
          ∧ @catboost_predict_proba fallback_library tt X' = inr y_prob
          ∧ y_prob !! 0%nat = Some p
          ∧ risk_score rep = risk_score_of p
          ∧ claim_probability rep = Num.round_nd (Num.fmul p 100) 2.
Proof.
  eapply (C3_calibration_fallback (L := fallback_library)
            Toy.dataset "claim_filed" __init__).
  - do 17 eexists.
    do 14 (split; [vm_compute; reflexivity|]).
    split; [vm_compute; discriminate|]. vm_compute. reflexivity.
  - vm_compute. reflexivity.
Defined.

(** C3, the claim as stated, fails on its first part.  Twenty farms none
    of which filed a claim, and a calibration fit that raises: the
    exception is caught and the estimator is kept uncalibrated, but
    training does not succeed; [roc_auc_score], which no [try] guards,
    raises on the labels of one class. *)
Lemma C3_counterexample :
  ∃ X (self' : @ProductionAgriRiskModel fallback_library),
    prepare_features (L := fallback_library) Toy.one_class_dataset
    = Ok (X, feature_columns, categorical_features)
    ∧ @calibrator_fit fallback_library tt X (NumCol (replicate 20 (Some 0)))
      = inl (Raise ValueError "isotonic fit failed")
    ∧ train (L := fallback_library) Toy.one_class_dataset "claim_filed"
        __init__
      = (inl (Raise ValueError "Only one class present in y_true"), self')
    ∧ model self' = Some (@Fitted fallback_library tt)
    ∧ calibrated_model self' = Some (@RawModel fallback_library tt)
    ∧ metrics self' = ∅.
Proof.
  eexists _, _. split; [vm_compute; reflexivity|].
  split; [reflexivity|]. split; [vm_compute; reflexivity|].
  repeat split.
Qed.

(** ** C7: what makes training fail *)

(** C7 (as the code has it).  [train] checks neither the number of
    samples nor the classes of the labels.  It returns, and leaves a
    bundle that can score, exactly when the calls it makes outside its
    [try] block return: feature engineering, the lookup of the label
    column and its mean, the two stratified splits, the three pools, the
    estimator fit, [predict_proba] on the test split, [roc_auc_score],
    [brier_score_loss], the confusion matrix and its four-way unpacking,
    the feature importance and its plot, and [calibration_curve].  The
    calibration fit is not among them: when it raises, the estimator is
    kept uncalibrated. *)
Theorem C7_training_fails_only_in_its_calls `{L : Library} df target self :
  (∃ mt self',
     train df target self = (Ok mt, self')
     ∧ is_Some (calibrated_model self'))
  ↔
  (∃ names cats m X_test y_test auc brier importance,
     train_calls_return df target names cats m X_test y_test auc brier
       importance).
Proof.
  split.
  - intros (mt & self' & Htrain & _). by eapply train_inv.
  - intros (names & cats & m & X_test & y_test & auc & brier & importance
            & Hcalls).
    destruct (train_run df target self _ _ _ _ _ _ _ _ Hcalls)
      as (mt & Htrain & _).
    eexists mt, _. split; [exact Htrain|]. simpl. by eexists.
Qed.

(** C7, the claim as stated, fails.  Twenty labelled records, far fewer
    than a few thousand, and a calibration fit that raises: [train]
    returns its metrics, flags nothing, and the bundle it leaves answers
    a scoring call.  On twenty records of one class [train] raises, and
    the object it leaves answers a scoring call all the same, from the
    estimator it kept uncalibrated. *)
Lemma C7_counterexample :
  col_length <$> (Toy.dataset !! "claim_filed"%string) = Some 20%nat
  ∧ is_ok (@calibrator_fit fallback_library tt [] (NumCol [])) = false
  ∧ is_ok (train (L := fallback_library)
             Toy.dataset "claim_filed" __init__).1 = true
  ∧ dom (metrics fallback_bundle) = metric_names
  ∧ is_ok (predict_risk_score fallback_bundle example_record) = true
  ∧ is_ok (train (L := fallback_library)
             Toy.one_class_dataset "claim_filed" __init__).1 = false
  ∧ is_ok (predict_risk_score
             (train (L := fallback_library)
                Toy.one_class_dataset "claim_filed" __init__).2
             example_record) = true.
Proof.
  repeat split; vm_compute; reflexivity.
Qed.

(** ** C6: scoring before training *)

Lemma shap_sum_raises bucket contributions i0 names acc e :
  shap_sum bucket contributions i0 names acc = inl e →
  e = Raise IndexError "index out of bounds".
Proof.
  revert i0 acc. induction names as [|f names IH]; simpl; intros i0 acc H;
    [done|].
  case_bool_decide; [|by eapply IH].
  destruct (contributions !! i0); [by eapply IH|]. by injection H as <-.
Qed.

Lemma _calculate_breakdown_raises names contributions e :
  _calculate_breakdown names contributions = inl e →
  e = Raise IndexError "index out of bounds".
Proof.
  unfold _calculate_breakdown. intros H.
  repeat (apply bind_raise_inv in H as [H|(? & _ & H)];
          [by eapply shap_sum_raises|]).
  by destruct (negb _).
Qed.

Lemma catboost_raises {A} (r : string + A) e :
  catboost r = inl e → exn_type e = CatBoostError.
Proof. destruct r; [|done]. by intros [= <-]. Qed.

Lemma predict_proba_raises `{L : Library} clf X e :
  predict_proba clf X = inl e → exn_type e = CatBoostError.
Proof. destruct clf; apply catboost_raises. Qed.

(** C6 (as the code has it).  [predict_risk_score] raises
    [ValueError("Model not trained. Call train() first.")] exactly when
    [calibrated_model] is unset, whatever the record, and then no report is
    returned.  The message is raised in no other case; the class is the
    generic [ValueError]. *)
Theorem C6_not_trained `{L : Library} self farm_data :
  (predict_risk_score self farm_data = inl not_trained
   ↔ calibrated_model self = None)
  ∧ exn_type not_trained = ValueError.
Proof.
  split; [|done]. unfold predict_risk_score. split.
  - destruct (calibrated_model self) as [clf|]; [|done].
    intros H. exfalso.
    apply bind_raise_inv in H as [H|([[X cols] cats] & _ & H)].
    { apply prepare_features_raises in H as [H|[H|H]]; done. }
    apply bind_raise_inv in H as [H|(y_prob & _ & H)].
    { by apply predict_proba_raises in H. }
    apply bind_raise_inv in H as [H|(p & _ & H)].
    { by destruct (_ !! 0%nat). }
    destruct (categorize _).
    apply bind_raise_inv in H as [H|(names & _ & H)].
    { by destruct (feature_names self). }
    apply bind_raise_inv in H as [H|(cats' & _ & H)].
    { destruct (categorical_features_of self); [done|]. by destruct names. }
    apply bind_raise_inv in H as [H|(pool & _ & H)].
    { by apply catboost_raises in H. }
    apply bind_raise_inv in H as [H|(m & _ & H)].
    { by destruct (model self) as [[|?]|]. }
    apply bind_raise_inv in H as [H|(shap & _ & H)].
    { by apply catboost_raises in H. }
    apply bind_raise_inv in H as [H|(row & _ & H)].
    { by destruct (_ !! 0%nat). }
    apply bind_raise_inv in H as [H|(bd & _ & H)]; [|done].
    by apply _calculate_breakdown_raises in H.
  - by intros ->.
Qed.

(** C6, the claim as stated, fails on the kind of the error.  A trained
    bundle given a record whose [owns_tractor] flag is NaN raises a
    [ValueError] too: the class of the not-ready error does not tell it
    from the error of an invalid record. *)
Lemma C6_counterexample :
  predict_risk_score (L := example_library) __init__ example_record
  = inl not_trained
  ∧ ∃ e,
      predict_risk_score example_bundle invalid_record = inl e
      ∧ exn_type e = exn_type not_trained.
Proof.
  split; [reflexivity|]. eexists. split; [vm_compute; reflexivity|done].
Qed.

(** No imputation statistic is kept from training: [prepare_features]
    computes every median from the frame it is given.  In any frame, a
    missing [ndvi_score] or [soil_moisture_percent] receives the median of
    the rows of the same state in that frame.  In a scoring call the frame
    has one row, so that, whenever a report is returned, both features are
    the values of the record itself and a missing one stays NaN. *)
Theorem satellite_medians_recomputed `{L : Library} :
  (∀ df X cols cats col i,
     prepare_features df = Ok (X, cols, cats) →
     (col, i) ∈ [("ndvi_score", 5%nat); ("soil_moisture_percent", 6%nat)]%string →
     ∃ st c,
       df !! "state"%string = Some st
       ∧ df !! col = Some (NumCol c)
       ∧ X !! i
         = Some (col,
                 NumCol (groupby_transform st c (λ x, fillna x (median x)))))
  ∧ (∀ self farm_data rep col i,
       predict_risk_score self farm_data = Ok rep →
       (col, i) ∈ [("ndvi_score", 5%nat);
                   ("soil_moisture_percent", 6%nat)]%string →
       ∃ X cols cats v,
         prepare_features (of_record farm_data) = Ok (X, cols, cats)
         ∧ of_record farm_data !! col = Some (NumCol [v])
         ∧ X !! i = Some (col, NumCol [v])).
Proof.
  split; [intros; by eapply prepare_features_satellite|].
  intros self farm_data rep col i Hrep Hcol.
  apply predict_risk_score_inv in Hrep
    as (X & cols & cats & p & ? & ? & ? & HX & _).
  destruct (prepare_features_satellite _ _ _ _ _ _ HX Hcol)
    as (st & c & Hst & Hc & HXi).
  destruct (prepare_features_deviation _ _ _ _ HX)
    as (st' & rain & k & Hst' & Hk & _).
  rewrite Hst in Hst'. injection Hst' as <-.
  apply of_record_lookup in Hst as (vs & _ & ->).
  apply mode0_one_row in Hk as (k0 & Hk0).
  pose proof Hc as Hc'.
  apply of_record_lookup in Hc' as (vc & _ & Hvc).
  apply one_row_numeric in Hvc as (v & ->).
  rewrite (one_row_group_median _ k0) in HXi by done.
  by exists X, cols, cats, v.
Qed.

Lemma satellite_medians_recomputed_witness :
  predict_risk_score (L := example_library) example_bundle cloudy_record
  = Ok example_report
  ∧ ∃ X cols cats v,
      prepare_features (L := example_library) (of_record cloudy_record)
      = Ok (X, cols, cats)
      ∧ of_record cloudy_record !! "ndvi_score"%string = Some (NumCol [v])
      ∧ X !! 5%nat = Some ("ndvi_score"%string, NumCol [v]).
Proof.
  assert (predict_risk_score (L := example_library) example_bundle
            cloudy_record = Ok example_report) as H
    by (vm_compute; reflexivity).
  split; [exact H|].
  apply (proj2 (satellite_medians_recomputed (L := example_library))
           example_bundle cloudy_record example_report "ndvi_score"%string
           5%nat H).
  by left.
Defined.

(** C1 (a defect of the code).  The farms of the training set are all in
    Punjab; the median of their vegetation index is 0.6 and that of their
    soil moisture is 30.  The bundle trained on them scores a Punjab farm
    without satellite data: the call returns a report, and the two
    features it was computed from are NaN, not 0.6 and 30.  The same farm
    placed after the training farms, as it is on the training path,
    receives 0.6 and 30.  The other statistics fare alike at serving
    time: a missing credit score stays NaN, and a missing state, whose
    mode is taken over the one row, ends the call with [KeyError]. *)
Lemma C1_missing_satellite_data_stays_NaN :
  Farm.state <$> Toy.farms = replicate 20 (Some "Punjab"%string)
  ∧ (∃ m, median (Farm.ndvi_score <$> Toy.farms) = Some m ∧ m == 0.6)
  ∧ (∃ m, median (Farm.soil_moisture_percent <$> Toy.farms) = Some m
          ∧ m == 30)
  ∧ cloudy_record !! "state"%string = Some (VStr "Punjab")
  ∧ cloudy_record !! "ndvi_score"%string = Some VNaN
  ∧ cloudy_record !! "soil_moisture_percent"%string = Some VNaN
  ∧ predict_risk_score (L := example_library) example_bundle cloudy_record
    = Ok example_report
  ∧ (∃ X,
       prepare_features (L := example_library) (of_record cloudy_record)
       = Ok (X, feature_columns, categorical_features)
       ∧ X !! 5%nat = Some ("ndvi_score"%string, NumCol [None])
       ∧ X !! 6%nat = Some ("soil_moisture_percent"%string, NumCol [None]))
  ∧ (∃ X ndvi moisture a b,
       prepare_features (L := example_library)
         (Farm.to_frame farms_and_cloudy)
       = Ok (X, feature_columns, categorical_features)
       ∧ X !! 5%nat = Some ("ndvi_score"%string, NumCol ndvi)
       ∧ X !! 6%nat = Some ("soil_moisture_percent"%string, NumCol moisture)
       ∧ ndvi !! 20%nat = Some (Some a) ∧ a == 0.6
       ∧ moisture !! 20%nat = Some (Some b) ∧ b == 30)
  ∧ (∃ X,
       prepare_features (L := example_library) (of_record unscored_record)
       = Ok (X, feature_columns, categorical_features)
       ∧ X !! 15%nat = Some ("kcc_score"%string, NumCol [None]))
  ∧ predict_risk_score (L := example_library) example_bundle
      stateless_record
    = inl (Raise KeyError "0").
Proof.
  split; [reflexivity|].
  split; [eexists; split; [vm_compute; reflexivity|reflexivity]|].
  split; [eexists; split; [vm_compute; reflexivity|reflexivity]|].
  do 3 (split; [reflexivity|]).
  split; [vm_compute; reflexivity|].
  split.
  { eexists. split; [vm_compute; reflexivity|]. split; reflexivity. }
  split.
  { eexists _, _, _, _, _. split; [vm_compute; reflexivity|].
    do 2 (split; [reflexivity|]).
    split; [vm_compute; reflexivity|]. split; [reflexivity|].
    split; [vm_compute; reflexivity|]. reflexivity. }
  split.
  { eexists. split; [vm_compute; reflexivity|]. reflexivity. }
  vm_compute. reflexivity.
Qed.

(** C8.  In every scoring call that returns a report for a record with a
    positive [actual_rainfall_mm], the feature
    [rainfall_deviation_from_state] is computed over the one-row frame of
    the record, the mean of its state is the rainfall of the record and the
    deviation is zero.  Among other records the same record gets another
    value: the first farm of the training set, with 600 mm, lies below the
    mean of the twenty. *)
Theorem C8_single_record_deviation `{L : Library} :
  (∀ self farm_data rep x,
     predict_risk_score self farm_data = Ok rep →
     farm_data !! "actual_rainfall_mm"%string = Some (VNum x) →
     0 < x →
     ∃ X cols cats d,
       prepare_features (of_record farm_data) = Ok (X, cols, cats)
       ∧ X !! 27%nat
         = Some ("rainfall_deviation_from_state"%string, NumCol [Some d])
       ∧ d == 0)
  ∧ (∃ r X d ds,
       Toy.farms !! 0%nat = Some r
       ∧ Farm.actual_rainfall_mm r = Some 600
       ∧ prepare_features (L := example_library) (Farm.to_frame Toy.farms)
         = Ok (X, feature_columns, categorical_features)
       ∧ X !! 27%nat
         = Some ("rainfall_deviation_from_state"%string,
                 NumCol (Some d :: ds))
       ∧ ¬ d == 0).
Proof.
  split.
  - intros self farm_data rep x Hrep Hrain Hx.
    apply predict_risk_score_inv in Hrep
      as (X & cols & cats & p & ? & ? & ? & HX & _).
    destruct (prepare_features_deviation _ _ _ _ HX)
      as (st & rain & k & Hst & Hk & Hr & HXi).
    apply of_record_lookup in Hst as (vs & _ & ->).
    apply mode0_one_row in Hk as (k0 & Hk0).
    apply of_record_lookup in Hr as (vr & Hvr & Hr).
    rewrite Hrain in Hvr. injection Hvr as <-. injection Hr as ->.
    destruct (one_row_deviation _ k0 x Hk0 Hx) as (d & Hd & Hd0).
    simpl in HXi, Hd. rewrite Hd in HXi.
    by exists X, cols, cats, d.
  - eexists _, _, _, _. split; [reflexivity|]. split; [reflexivity|].
    split; [vm_compute; reflexivity|]. split; [reflexivity|].
    intros Hd. by vm_compute in Hd.
Qed.

Lemma C8_single_record_deviation_witness :
  predict_risk_score (L := example_library) example_bundle example_record
  = Ok example_report
  ∧ example_record !! "actual_rainfall_mm"%string = Some (VNum 800)
  ∧ 0 < 800
  ∧ ∃ X cols cats d,
      prepare_features (L := example_library) (of_record example_record)
      = Ok (X, cols, cats)
      ∧ X !! 27%nat
        = Some ("rainfall_deviation_from_state"%string, NumCol [Some d])
      ∧ d == 0.
Proof.
  assert (predict_risk_score (L := example_library) example_bundle
            example_record = Ok example_report) as H
    by (vm_compute; reflexivity).
  split; [exact H|]. split; [reflexivity|]. split; [reflexivity|].
  exact (proj1 (C8_single_record_deviation (L := example_library))
           example_bundle example_record example_report 800 H
           eq_refl eq_refl).
Defined.

